(** * Gemini CLI core (python/gemini_core.py): session manager, tool
      invocation pipeline and tool registry.

    The development embeds the Python code shallowly:
    - Python values are the inductive type [pyval]: the JSON-like ones
      and sets, which [json.dumps] refuses; a Python [dict] is an
      insertion-ordered association list ([odict]);
    - a Python [str] is held as its UTF-8 text, so [len] counts code
      points and [strip] knows the white space of Unicode; [upper] and
      [lower], whose tables cover all of Unicode, and [json.dumps], which
      raises on what it cannot serialise, are given ([str_methods],
      [json_dumps]);
    - Python floats (the two thresholds and the compression ratio) are
      exact rationals of [Q]; for the list lengths and token counts a
      session can hold, [int (n * 0.3)] computed on IEEE doubles and on
      rationals agree;
    - exceptions, the mutable client object, the state of the external
      collaborators (model backend and tools) and the chronological trace
      of collaborator calls and printed lines are threaded by the monad
      [M];
    - the object store with references, needed for what [get_history]
      shares with its caller, is the separate module [Aliasing]. *)

From Stdlib Require Import ZArith QArith Qround Lia Ascii String.
From stdpp Require Import base option list strings pretty gmap.

Local Open Scope string_scope.
Local Open Scope Z_scope.
Local Open Scope list_scope.

(** ** Python values, exceptions, dictionaries *)

#[warnings="-register-all"]
Inductive pyval : Type :=
| PNone
| PBool (b : bool)
| PInt (z : Z)
| PStr (s : string)
| PList (xs : list pyval)
| PDict (kvs : list (string * pyval))
| PSet (xs : list pyval).

(** An instance of a subclass of [Exception]; [exn_str] is [str(e)]. *)
Record exn : Type := { exn_class : string; exn_str : string }.

Inductive result (A : Type) : Type :=
| Return (a : A)
| Raise (e : exn).
Arguments Return {A} a.
Arguments Raise {A} e.

Definition KeyError (key : string) : exn :=
  {| exn_class := "KeyError"; exn_str := "'" +:+ key +:+ "'" |}.
Definition TypeError (msg : string) : exn :=
  {| exn_class := "TypeError"; exn_str := msg |}.
Definition IndexError (msg : string) : exn :=
  {| exn_class := "IndexError"; exn_str := msg |}.

(** A [dict] keeps its keys in insertion order; assigning to a key that is
    present replaces the value in place, a new key goes to the end. *)
Definition odict (V : Type) : Type := list (string * V).

Fixpoint odict_get {V} (k : string) (d : odict V) : option V :=
  match d with
  | [] => None
  | (k', v) :: d' => if String.eqb k k' then Some v else odict_get k d'
  end.

Fixpoint odict_set {V} (k : string) (v : V) (d : odict V) : odict V :=
  match d with
  | [] => [(k, v)]
  | (k', v') :: d' =>
      if String.eqb k k' then (k, v) :: d' else (k', v') :: odict_set k v d'
  end.

Definition odict_keys {V} (d : odict V) : list string := d.*1.
Definition odict_values {V} (d : odict V) : list V := d.*2.
Definition odict_in {V} (k : string) (d : odict V) : bool :=
  match odict_get k d with Some _ => true | None => false end.

(** Truth value of an [Optional[str]]: [None] and the empty string are
    false. *)
Definition str_truthy (o : option string) : bool :=
  match o with
  | None => false
  | Some s => negb (String.eqb s "")
  end.

(** [l[:i]] and [l[i:]] for an integer [i]; a negative index counts from
    the end and is clamped at the start of the list. *)
Definition slice_index {A} (l : list A) (i : Z) : nat :=
  if i <? 0 then Z.to_nat (Z.max 0 (Z.of_nat (length l) + i)) else Z.to_nat i.
Definition slice_to {A} (l : list A) (i : Z) : list A := take (slice_index l i) l.
Definition slice_from {A} (l : list A) (i : Z) : list A := drop (slice_index l i) l.

(** [int(x)] of a float: truncation towards zero. *)
Definition py_int (x : Q) : Z := Z.quot (Qnum x) (Z.pos (Qden x)).

Definition Qltb (x y : Q) : bool := negb (Qle_bool y x).

(** [str.upper] and [str.lower] of the standard library: their case tables
    cover all of Unicode (the upper case of the sharp s is [SS]) and are no
    part of this development. *)
Class str_methods : Type := {
  str_upper : string → string;
  str_lower : string → string
}.

(** [len(s)]: the number of code points, which are the bytes of the UTF-8
    text that are no continuation bytes (128 to 191). *)
Definition is_continuation (c : ascii) : bool :=
  let n := nat_of_ascii c in ((128 <=? n) && (n <=? 191))%nat.
Fixpoint str_len (s : string) : nat :=
  match s with
  | EmptyString => 0%nat
  | String c s' => ((if is_continuation c then 0 else 1) + str_len s')%nat
  end.

(** [s[:n]] for a natural number [n]: the first [n] code points. *)
Fixpoint str_take (n : nat) (s : string) : string :=
  match s with
  | EmptyString => EmptyString
  | String c s' =>
      if is_continuation c then String c (str_take n s')
      else match n with
           | O => EmptyString
           | S k => String c (str_take k s')
           end
  end.

(** [sep.join(xs)] on strings. *)
Fixpoint str_join (sep : string) (xs : list string) : string :=
  match xs with
  | [] => ""
  | [x] => x
  | x :: xs' => x +:+ sep +:+ str_join sep xs'
  end.

(** ** Data model *)

(** class ToolConfirmationOutcome *)
Inductive ToolConfirmationOutcome : Type :=
| PROCEED_ONCE | PROCEED_ALWAYS | PROCEED_ALWAYS_SERVER
| PROCEED_ALWAYS_TOOL | MODIFY_WITH_EDITOR | CANCEL.

(** class ToolCallConfirmationDetails *)
Record ToolCallConfirmationDetails : Type := {
  cd_type : string;
  cd_title : string;
  cd_command : option string;
  cd_server_name : option string;
  cd_tool_name : option string;
  cd_prompt : option string
}.

(** The value of [should_confirm_execute]:
    [Union[ToolCallConfirmationDetails, bool]]. *)
Inductive confirmation : Type :=
| ConfirmDetails (d : ToolCallConfirmationDetails)
| ConfirmBool (b : bool).

(** [confirmation and confirmation is not False]: a dataclass instance is
    true, and so is [True]. *)
Definition needs_confirmation (c : confirmation) : bool :=
  match c with
  | ConfirmDetails _ => true
  | ConfirmBool b => b
  end.

(** class Content *)
Record Content : Type := {
  role : string;
  parts : list (odict pyval)
}.

Definition from_text (r : string) (text : string) : Content :=
  {| role := r; parts := [[("text", PStr text)]] |}.

(** class ChatCompressionInfo; [compression_ratio] is set by
    [__post_init__]. *)
Record ChatCompressionInfo : Type := {
  original_token_count : Z;
  new_token_count : Z;
  compression_ratio : Q
}.

Definition post_init (original new : Z) : Q :=
  if 0 <? original then (inject_Z new / inject_Z original)%Q else 1%Q.

Definition new_ChatCompressionInfo (original new : Z) : ChatCompressionInfo :=
  {| original_token_count := original;
     new_token_count := new;
     compression_ratio := post_init original new |}.

(** class Config *)
Record Config : Type := {
  api_key : option string;
  model : string;
  max_tokens : Z;
  compression_threshold : Q;
  cfg_compression_preserve_threshold : Q;
  user_memory : option string
}.

Definition default_Config : Config :=
  {| api_key := None; model := "gemini-pro"; max_tokens := 8192;
     compression_threshold := (8 # 10)%Q;
     cfg_compression_preserve_threshold := (3 # 10)%Q;
     user_memory := None |}.

(** A tool call as the backend sends it: a dict with the keys ['name'] and
    ['parameters'], either of which may be missing. *)
Record ToolCall : Type := {
  tc_name : option string;
  tc_parameters : option pyval
}.

(** A backend response: a dict with the optional keys ['text'] and
    ['tool_calls']. *)
Record Response : Type := {
  resp_text : option string;
  resp_tool_calls : option (list ToolCall)
}.

(** ToolResult = Dict[str, Any] *)
Definition ToolResult : Type := odict pyval.

(** class PromptManager *)
Definition base_prompt : string :=
"You are a helpful AI assistant with access to various tools. 

# Operational Guidelines

## Tone and Style
- Be concise and direct in your responses
- Focus on being helpful and accurate
- Use tools when appropriate to accomplish tasks

## Tool Usage
- You have access to various tools that can help you accomplish tasks
- Always validate tool parameters before use
- Provide clear descriptions of what tools will do before execution
".

Definition nl : string := String (ascii_of_nat 10) EmptyString.

Definition get_core_system_prompt (memory : option string) : string :=
  if str_truthy memory
  then base_prompt +:+ nl +:+ nl +:+ "# User Context" +:+ nl +:+ default "" memory
  else base_prompt.

Definition get_compression_prompt : string :=
"Please create a concise summary of the conversation history so far.

Focus on:
- Key topics discussed
- Important decisions made
- Tools used and their outcomes
- Any ongoing context that should be preserved

Provide the summary in a clear, structured format that preserves the essential information while reducing the overall length.".

(** ** External collaborators, client object and the monad [M] *)

Section Core.

(** State of the external collaborators (model backend and tools). *)
Context {W : Type} {L : str_methods}.
(** [json.dumps(v)] and [json.dumps(v, indent=2)] of the standard
    library; they raise [TypeError] on a value that is not JSON
    serialisable. *)
Variable json_dumps : pyval → result string.
Variable json_dumps_indent : pyval → result string.

(** A call into a collaborator: it may change the collaborators' state
    and either returns or raises. *)
Definition collab (A : Type) : Type := W → W * result A.

(** class BaseTool: the attributes set by [__init__] and the four
    methods a subclass provides or overrides. *)
Record BaseTool : Type := {
  name : string;
  display_name : string;
  description : string;
  parameter_schema : pyval;
  is_output_markdown : bool;
  can_update_output : bool;
  validate_tool_params : pyval → collab (option string);
  get_description : pyval → collab string;
  should_confirm_execute : pyval → collab confirmation;
  execute : pyval → collab pyval
}.

(** BaseTool.schema *)
Definition schema (tool : BaseTool) : pyval :=
  PDict [("name", PStr (name tool));
         ("description", PStr (description tool));
         ("parameters", parameter_schema tool)].

(** The methods as [BaseTool] itself defines them. *)
Definition BaseTool_validate_tool_params (params : pyval) : collab (option string) :=
  λ e, match params with
       | PDict _ => (e, Return None)
       | _ => (e, Return (Some "Parameters must be a dictionary"))
       end.
Definition BaseTool_get_description (display : string) (params : pyval) : collab string :=
  λ e, match json_dumps_indent params with
       | Return dumped =>
           (e, Return ("Executing " +:+ display +:+ " with parameters: " +:+ dumped))
       | Raise x => (e, Raise x)
       end.
Definition BaseTool_should_confirm_execute (params : pyval) : collab confirmation :=
  λ e, (e, Return (ConfirmBool false)).

(** class ToolRegistry *)
Record ToolRegistry : Type := {
  reg_config : Config;
  tools : odict BaseTool
}.

(** The model backend ([self.api]). *)
Record GeminiAPI : Type := {
  generate_content :
    list Content → option pyval → option string → collab Response;
  count_tokens : list Content → collab Z
}.

(** class GeminiClient *)
Record GeminiClient : Type := {
  config : Config;
  api : GeminiAPI;
  tool_registry : ToolRegistry;
  history : list Content;
  compression_token_threshold : Q;
  compression_preserve_threshold : Q
}.

(** What the client does that is visible outside of it, in order. *)
Inductive event : Type :=
| EvPrint (line : string)
| EvGenerateContent (contents : list Content) (tool_config : option pyval)
                    (system_instruction : option string)
| EvCountTokens (contents : list Content)
| EvValidate (tool_name : string) (params : pyval)
| EvShouldConfirm (tool_name : string) (params : pyval)
| EvGetDescription (tool_name : string) (params : pyval)
| EvExecute (tool_name : string) (params : pyval).

Record World : Type := {
  client : GeminiClient;
  env : W;
  trace : list event
}.

Definition M (A : Type) : Type := World → World * result A.

Definition ret {A} (a : A) : M A := λ w, (w, Return a).
Definition raise {A} (e : exn) : M A := λ w, (w, Raise e).
Definition bind {A B} (m : M A) (k : A → M B) : M B :=
  λ w, match m w with
       | (w', Return a) => k a w'
       | (w', Raise e) => (w', Raise e)
       end.
(** [try: m  except Exception as e: handler e] *)
Definition try_except {A} (m : M A) (handler : exn → M A) : M A :=
  λ w, match m w with
       | (w', Return a) => (w', Return a)
       | (w', Raise e) => handler e w'
       end.

Definition get_self : M GeminiClient := λ w, (w, Return (client w)).
Definition put_self (c : GeminiClient) : M unit :=
  λ w, ({| client := c; env := env w; trace := trace w |}, Return tt).
(** An awaited call into a collaborator, recorded in the trace. *)
Definition call {A} (ev : event) (f : collab A) : M A :=
  λ w, let (e', r) := f (env w) in
       ({| client := client w; env := e'; trace := trace w ++ [ev] |}, r).
(** A value of the standard library, or the exception it raised. *)
Definition of_result {A} (r : result A) : M A :=
  match r with
  | Return a => ret a
  | Raise e => raise e
  end.
Definition print (line : string) : M unit :=
  λ w, ({| client := client w; env := env w; trace := trace w ++ [EvPrint line] |},
        Return tt).

Notation "x <- c1 ;; c2" := (bind c1 (λ x, c2))
  (at level 20, c1 at level 99, c2 at level 200, only parsing).
Notation "c1 ;; c2" := (bind c1 (λ _, c2))
  (at level 100, c2 at level 200, only parsing, right associativity).

Definition with_history (c : GeminiClient) (h : list Content) : GeminiClient :=
  {| config := config c; api := api c; tool_registry := tool_registry c;
     history := h;
     compression_token_threshold := compression_token_threshold c;
     compression_preserve_threshold := compression_preserve_threshold c |}.

Definition with_tools (c : GeminiClient) (t : odict BaseTool) : GeminiClient :=
  {| config := config c; api := api c;
     tool_registry := {| reg_config := reg_config (tool_registry c); tools := t |};
     history := history c;
     compression_token_threshold := compression_token_threshold c;
     compression_preserve_threshold := compression_preserve_threshold c |}.

(** [self.history = h] and [self.history.append(x)] *)
Definition assign_history (h : list Content) : M unit :=
  self <- get_self ;; put_self (with_history self h).
Definition history_append (x : Content) : M unit :=
  self <- get_self ;; put_self (with_history self (history self ++ [x])).

(** ** class ToolRegistry *)

(** [if self.tools.get(tool.name)]: a tool object is true, so the test
    succeeds exactly when the name is present. *)
Definition register_tool (tool : BaseTool) : M unit :=
  self <- get_self ;;
  let reg := tools (tool_registry self) in
  (if odict_in (name tool) reg
   then print ("Warning: Tool with name '" +:+ name tool
               +:+ "' is already registered. Overwriting.")
   else ret tt) ;;
  put_self (with_tools self (odict_set (name tool) tool reg)).

Definition get_tool (reg : ToolRegistry) (n : string) : option BaseTool :=
  odict_get n (tools reg).

Definition get_function_declarations (reg : ToolRegistry) : list pyval :=
  schema <$> odict_values (tools reg).

Definition get_all_tools (reg : ToolRegistry) : list BaseTool :=
  odict_values (tools reg).

(** ** class GeminiClient *)

(** [__init__]; the backend is the collaborator handed to the client. *)
Definition init (cfg : Config) (backend : GeminiAPI) : GeminiClient :=
  {| config := cfg;
     api := backend;
     tool_registry := {| reg_config := cfg; tools := [] |};
     history := [] ++ [from_text "system" (get_core_system_prompt (user_memory cfg))];
     compression_token_threshold := (8 # 10)%Q;
     compression_preserve_threshold := (3 # 10)%Q |}.

Definition get_history : M (list Content) :=
  self <- get_self ;; ret (history self).

Definition set_history (h : list Content) : M unit :=
  assign_history h.

Definition reset_chat : M unit :=
  self <- get_self ;;
  let system_prompt := get_core_system_prompt (user_memory (config self)) in
  assign_history [from_text "system" system_prompt].

Definition error_result (tool_name msg : string) : ToolResult :=
  [("tool_name", PStr tool_name); ("error", PStr msg)].
Definition success_result (tool_name : string) (r : pyval) : ToolResult :=
  [("tool_name", PStr tool_name); ("result", r)].

Definition _execute_tool_call (tool_call : ToolCall) : M ToolResult :=
  tool_name <- match tc_name tool_call with
               | Some n => ret n
               | None => raise (KeyError "name")
               end ;;
  let tool_params := default (PDict []) (tc_parameters tool_call) in
  self <- get_self ;;
  match get_tool (tool_registry self) tool_name with
  | None => ret (error_result tool_name ("Tool '" +:+ tool_name +:+ "' not found"))
  | Some tool =>
      validation_error <- call (EvValidate tool_name tool_params)
                               (validate_tool_params tool tool_params) ;;
      if str_truthy validation_error
      then ret (error_result tool_name
                  ("Parameter validation failed: " +:+ default "" validation_error))
      else
        confirmation <- call (EvShouldConfirm tool_name tool_params)
                             (should_confirm_execute tool tool_params) ;;
        (if needs_confirmation confirmation
         then d <- call (EvGetDescription tool_name tool_params)
                        (get_description tool tool_params) ;;
              print ("Tool execution requires confirmation: " +:+ d) ;;
              print "Auto-approving for demo..."
         else ret tt) ;;
        try_except
          (r <- call (EvExecute tool_name tool_params) (execute tool tool_params) ;;
           ret (success_result tool_name r))
          (λ e, ret (error_result tool_name (exn_str e)))
  end.

(** The role-labelled transcript; [' '.join] raises [TypeError] on a text
    that is not a string. *)
Fixpoint text_parts (ps : list (odict pyval)) : list pyval :=
  match ps with
  | [] => []
  | part :: ps' =>
      match odict_get "text" part with
      | Some t => t :: text_parts ps'
      | None => text_parts ps'
      end
  end.

Fixpoint join_texts (ts : list pyval) : result (list string) :=
  match ts with
  | [] => Return []
  | PStr s :: ts' =>
      match join_texts ts' with
      | Return ss => Return (s :: ss)
      | Raise e => Raise e
      end
  | _ :: _ => Raise (TypeError "sequence item: expected str instance")
  end.

Fixpoint format_lines (h : list Content) : result (list string) :=
  match h with
  | [] => Return []
  | content :: h' =>
      let r := str_upper (role content) in
      match text_parts (parts content) with
      | [] => format_lines h'
      | ts =>
          match join_texts ts with
          | Raise e => Raise e
          | Return ss =>
              match format_lines h' with
              | Return ls => Return ((r +:+ ": " +:+ str_join " " ss) :: ls)
              | Raise e => Raise e
              end
          end
      end
  end.

Definition _format_history_for_summary (h : list Content) : M string :=
  match format_lines h with
  | Return ls => ret (str_join nl ls)
  | Raise e => raise e
  end.

(** The f-string that asks the backend for the summary. *)
Definition summary_prompt_of (transcript : string) : string :=
  "Please summarize this conversation history:" +:+ nl +:+ nl
  +:+ transcript +:+ nl +:+ nl +:+ get_compression_prompt.

Definition try_compress_chat (force : bool) : M (option ChatCompressionInfo) :=
  self <- get_self ;;
  if (length (history self) <? 2)%nat then ret None else
  original <- call (EvCountTokens (history self))
                   (count_tokens (api self) (history self)) ;;
  let n := Z.of_nat (length (history self)) in
  let preserve_count :=
    Z.max 2 (py_int (inject_Z n * compression_preserve_threshold self)) in
  let split_index := n - preserve_count in
  let history_to_compress := slice_to (history self) split_index in
  let history_to_keep := slice_from (history self) split_index in
  if (length history_to_compress <? 2)%nat then ret None else
  transcript <- _format_history_for_summary history_to_compress ;;
  let summary_prompt := summary_prompt_of transcript in
  summary_response <-
    call (EvGenerateContent [from_text "user" summary_prompt] None None)
         (generate_content (api self) [from_text "user" summary_prompt] None None) ;;
  let summary := default "Summary not available" (resp_text summary_response) in
  first <- match history self with
           | c :: _ => ret c
           | [] => raise (IndexError "list index out of range")
           end ;;
  let new_history :=
    ([first;
      from_text "user" ("Previous conversation summary: " +:+ summary);
      from_text "model" "Got it. Thanks for the additional context!"]
     ++ history_to_keep)%list in
  assign_history new_history ;;
  new <- call (EvCountTokens new_history) (count_tokens (api self) new_history) ;;
  ret (Some (new_ChatCompressionInfo original new)).

Definition _check_and_compress_if_needed : M (option ChatCompressionInfo) :=
  self <- get_self ;;
  if (length (history self) <? 5)%nat then ret None else
  token_count <- call (EvCountTokens (history self))
                      (count_tokens (api self) (history self)) ;;
  let limit := max_tokens (config self) in
  if Qltb (inject_Z token_count) (compression_token_threshold self * inject_Z limit)
  then ret None
  else try_compress_chat false.

(** The loop of [send_message] over [response['tool_calls']]. *)
Fixpoint tool_call_loop (tool_results : list ToolResult) (calls : list ToolCall)
  : M (list ToolResult) :=
  match calls with
  | [] => ret tool_results
  | tool_call :: calls' =>
      r <- _execute_tool_call tool_call ;;
      tool_call_loop (tool_results ++ [r]) calls'
  end.

Definition send_message (message : string) : M string :=
  history_append (from_text "user" message) ;;
  _check_and_compress_if_needed ;;
  self <- get_self ;;
  let decls := get_function_declarations (tool_registry self) in
  let tool_config :=
    match decls with
    | [] => None
    | _ => Some (PList [PDict [("function_declarations", PList decls)]])
    end in
  let system_instruction := get_core_system_prompt (user_memory (config self)) in
  response <-
    call (EvGenerateContent (history self) tool_config (Some system_instruction))
         (generate_content (api self) (history self) tool_config
                           (Some system_instruction)) ;;
  response_text <-
    match resp_tool_calls response with
    | Some calls =>
        tool_results <- tool_call_loop [] calls ;;
        dumped <- of_result (json_dumps (PList (PDict <$> tool_results))) ;;
        history_append (from_text "function" dumped) ;;
        self' <- get_self ;;
        final_response <-
          call (EvGenerateContent (history self') None None)
               (generate_content (api self') (history self') None None) ;;
        ret (default "Tool execution completed." (resp_text final_response))
    | None => ret (default "No response generated." (resp_text response))
    end ;;
  history_append (from_text "model" response_text) ;;
  ret response_text.

End Core.

(** ** The object store: what [get_history] shares with its caller *)

Module Aliasing.

Abbreviation loc := positive.

(** The objects behind [self.history]: the list holds references to
    [Content] objects, a [Content] holds its role and a reference to its
    parts list, whose items are references to dicts. *)
Inductive obj : Type :=
| OList (items : list loc)
| OContent (r : string) (parts_ref : loc)
| ODict (entries : odict pyval).

Abbreviation heap := (gmap loc obj).

(** The client object: its attribute [history] is a reference. *)
Record client_obj : Type := { history_ref : loc }.

Definition alloc (h : heap) (o : obj) : heap * loc :=
  let l := fresh (dom h) in (<[l := o]> h, l).

(** [l.copy()]: a new list object with the same items. *)
Definition list_copy (h : heap) (l : loc) : option (heap * loc) :=
  match h !! l with
  | Some (OList items) => Some (alloc h (OList items))
  | _ => None
  end.

(** [return self.history.copy()] *)
Definition get_history (h : heap) (self : client_obj) : option (heap * loc) :=
  list_copy h (history_ref self).

(** [self.history = history.copy()] *)
Definition set_history (h : heap) (self : client_obj) (arg : loc)
  : option (heap * client_obj) :=
  match list_copy h arg with
  | Some (h', l) => Some (h', {| history_ref := l |})
  | None => None
  end.

(** The value of the object graph under a reference. *)
Definition read_dict (h : heap) (l : loc) : option (odict pyval) :=
  match h !! l with
  | Some (ODict d) => Some d
  | _ => None
  end.

Definition read_content (h : heap) (l : loc) : option Content :=
  match h !! l with
  | Some (OContent r p) =>
      match h !! p with
      | Some (OList ds) =>
          match mapM (read_dict h) ds with
          | Some ps => Some {| role := r; parts := ps |}
          | None => None
          end
      | _ => None
      end
  | _ => None
  end.

Definition read_list (h : heap) (l : loc) : option (list Content) :=
  match h !! l with
  | Some (OList cs) => mapM (read_content h) cs
  | _ => None
  end.

Definition read_history (h : heap) (self : client_obj) : option (list Content) :=
  read_list h (history_ref self).

(** What a caller can do with the list [ret] it received. *)
Inductive mutation : Type :=
| ListAppend (x : loc)
| ListSetItem (i : nat) (x : loc)
| ListDelItem (i : nat)
| ListClear
| SetRole (i : nat) (r : string)
| SetParts (i : nat) (p : loc)
| PartsAppend (i : nat) (d : loc)
| PartSetItem (i j : nat) (k : string) (v : pyval).

(** The mutations of the list object itself, as opposed to those of its
    elements. *)
Definition list_level (m : mutation) : bool :=
  match m with
  | ListAppend _ | ListSetItem _ _ | ListDelItem _ | ListClear => true
  | _ => false
  end.

(** [None] stands for the [IndexError] or [AttributeError] Python
    raises. *)
Definition mutate (h : heap) (ret : loc) (m : mutation) : option heap :=
  match h !! ret with
  | Some (OList items) =>
      match m with
      | ListAppend x => Some (<[ret := OList (items ++ [x])]> h)
      | ListSetItem i x =>
          if decide (i < length items)%nat
          then Some (<[ret := OList (<[i := x]> items)]> h) else None
      | ListDelItem i =>
          if decide (i < length items)%nat
          then Some (<[ret := OList (delete i items)]> h) else None
      | ListClear => Some (<[ret := OList []]> h)
      | SetRole i r =>
          match items !! i with
          | Some c =>
              match h !! c with
              | Some (OContent _ p) => Some (<[c := OContent r p]> h)
              | _ => None
              end
          | None => None
          end
      | SetParts i p =>
          match items !! i with
          | Some c =>
              match h !! c with
              | Some (OContent r _) => Some (<[c := OContent r p]> h)
              | _ => None
              end
          | None => None
          end
      | PartsAppend i d =>
          match items !! i with
          | Some c =>
              match h !! c with
              | Some (OContent _ p) =>
                  match h !! p with
                  | Some (OList ds) => Some (<[p := OList (ds ++ [d])]> h)
                  | _ => None
                  end
              | _ => None
              end
          | None => None
          end
      | PartSetItem i j k v =>
          match items !! i with
          | Some c =>
              match h !! c with
              | Some (OContent _ p) =>
                  match h !! p with
                  | Some (OList ds) =>
                      match ds !! j with
                      | Some dl =>
                          match h !! dl with
                          | Some (ODict d) => Some (<[dl := ODict (odict_set k v d)]> h)
                          | _ => None
                          end
                      | None => None
                      end
                  | _ => None
                  end
              | _ => None
              end
          | None => None
          end
      end
  | _ => None
  end.

Fixpoint mutate_all (h : heap) (ret : loc) (ms : list mutation) : option heap :=
  match ms with
  | [] => Some h
  | m :: ms' =>
      match mutate h ret m with
      | Some h' => mutate_all h' ret ms'
      | None => None
      end
  end.

End Aliasing.

(** ** The mock backend's token count and test doubles *)

(** MockGeminiAPI.count_tokens: a quarter of the characters of the text
    parts; [len] of a text that has no length raises. *)
Definition py_len (v : pyval) : result Z :=
  match v with
  | PStr s => Return (Z.of_nat (str_len s))
  | PList xs => Return (Z.of_nat (length xs))
  | PDict kvs => Return (Z.of_nat (length kvs))
  | PSet xs => Return (Z.of_nat (length xs))
  | _ => Raise (TypeError "object has no len()")
  end.

Fixpoint total_chars_parts (total : Z) (ps : list (odict pyval)) : result Z :=
  match ps with
  | [] => Return total
  | part :: ps' =>
      match odict_get "text" part with
      | Some t =>
          match py_len t with
          | Return k => total_chars_parts (total + k) ps'
          | Raise e => Raise e
          end
      | None => total_chars_parts total ps'
      end
  end.

Fixpoint total_chars (total : Z) (contents : list Content) : result Z :=
  match contents with
  | [] => Return total
  | content :: cs =>
      match total_chars_parts total (parts content) with
      | Return total' => total_chars total' cs
      | Raise e => Raise e
      end
  end.

Definition MockGeminiAPI_count_tokens {W} (contents : list Content) : collab (W:=W) Z :=
  λ e, match total_chars 0 contents with
       | Return total => (e, Return (total / 4))
       | Raise x => (e, Raise x)
       end.

(** A serializer in the format of [json.dumps], without escapes; like
    [json.dumps] it refuses a set, wherever it occurs. *)
Definition dquote : string := String (ascii_of_nat 34) EmptyString.
Definition quoted (s : string) : string := dquote +:+ s +:+ dquote.

Fixpoint simple_dumps (v : pyval) : result string :=
  match v with
  | PNone => Return "null"
  | PBool true => Return "true"
  | PBool false => Return "false"
  | PInt z => Return (pretty z)
  | PStr s => Return (quoted s)
  | PList xs =>
      match (fix items (xs : list pyval) : result (list string) :=
               match xs with
               | [] => Return []
               | x :: xs' =>
                   match simple_dumps x with
                   | Raise e => Raise e
                   | Return d =>
                       match items xs' with
                       | Raise e => Raise e
                       | Return ds => Return (d :: ds)
                       end
                   end
               end) xs with
      | Raise e => Raise e
      | Return ds => Return ("[" +:+ str_join ", " ds +:+ "]")
      end
  | PDict kvs =>
      match (fix items (kvs : list (string * pyval)) : result (list string) :=
               match kvs with
               | [] => Return []
               | (k, x) :: kvs' =>
                   match simple_dumps x with
                   | Raise e => Raise e
                   | Return d =>
                       match items kvs' with
                       | Raise e => Raise e
                       | Return ds => Return ((quoted k +:+ ": " +:+ d) :: ds)
                       end
                   end
               end) kvs with
      | Raise e => Raise e
      | Return ds => Return ("{" +:+ str_join ", " ds +:+ "}")
      end
  | PSet _ => Raise (TypeError "Object of type set is not JSON serializable")
  end.

(** Doubles for [str.upper] and [str.lower], for text whose letters are
    ASCII letters. *)
Definition simple_upper_char (c : ascii) : ascii :=
  let n := nat_of_ascii c in
  if ((97 <=? n) && (n <=? 122))%nat then ascii_of_nat (n - 32) else c.
Definition simple_lower_char (c : ascii) : ascii :=
  let n := nat_of_ascii c in
  if ((65 <=? n) && (n <=? 90))%nat then ascii_of_nat (n + 32) else c.
Fixpoint str_map (f : ascii → ascii) (s : string) : string :=
  match s with
  | EmptyString => EmptyString
  | String c s' => String (f c) (str_map f s')
  end.
#[global] Instance simple_str_methods : str_methods :=
  {| str_upper := str_map simple_upper_char;
     str_lower := str_map simple_lower_char |}.

(** A tool whose validator answers [v] and whose [execute] counts its
    invocations in the collaborators' state before it answers [x]. *)
Definition mock_tool (n : string) (v : result (option string)) (x : result pyval)
  : BaseTool (W:=nat) :=
  {| name := n; display_name := n; description := "test double";
     parameter_schema := PDict [("type", PStr "object")];
     is_output_markdown := true; can_update_output := false;
     validate_tool_params := λ _ e, (e, v);
     get_description := BaseTool_get_description simple_dumps n;
     should_confirm_execute := BaseTool_should_confirm_execute;
     execute := λ _ e, (S e, x) |}.

Definition echo_tool : BaseTool := mock_tool "echo_tool" (Return None) (Return (PStr "hello")).
Definition picky_tool : BaseTool :=
  mock_tool "picky" (Return (Some "")) (Return (PStr "ran anyway")).
Definition strict_tool : BaseTool :=
  mock_tool "strict" (Return (Some "Missing required parameter: message")) (Return PNone).
Definition fragile_tool : BaseTool :=
  mock_tool "fragile"
    (Raise {| exn_class := "ValueError"; exn_str := "bad schema" |}) (Return PNone).
Definition failing_tool : BaseTool :=
  mock_tool "failing" (Return None)
    (Raise {| exn_class := "RuntimeError"; exn_str := "disk full" |}).

(** A backend stub: the request that carries a system instruction gets the
    scripted response, the follow-up and the summary requests get a text. *)
Definition stub_api (scripted : Response) : GeminiAPI (W:=nat) :=
  {| generate_content := λ _ _ sys e,
       (e, Return (match sys with
                   | Some _ => scripted
                   | None => {| resp_text := Some "done"; resp_tool_calls := None |}
                   end));
     count_tokens := MockGeminiAPI_count_tokens |}.

Definition text_response (s : string) : Response :=
  {| resp_text := Some s; resp_tool_calls := None |}.

Definition call_of (n : string) : ToolCall :=
  {| tc_name := Some n; tc_parameters := Some (PDict [("message", PStr "hi")]) |}.

(** A session of the stub backend with the tools [ts] registered in
    order. *)
Definition start (scripted : Response) (ts : list (BaseTool (W:=nat))) : World (W:=nat) :=
  foldl (λ w t, (register_tool t w).1)
        {| client := init default_Config (stub_api scripted); env := 0%nat; trace := [] |}
        ts.

Definition tools_response (names : list string) : Response :=
  {| resp_text := None; resp_tool_calls := Some (call_of <$> names) |}.

(** A session with all the doubles registered. *)
Definition tools_world : World (W:=nat) :=
  start (text_response "hello")
        [echo_tool; picky_tool; strict_tool; fragile_tool; failing_tool].

(** A session after one request that the backend answered with a call of
    the echo tool: the history has the system, user, function and model
    turns. *)
Definition four_turns : World (W:=nat) :=
  (send_message simple_dumps "use the tool"
     (start (tools_response ["echo_tool"]) [echo_tool])).1.

(** Sessions whose backend asks for three calls, the first of which fails
    in [execute], respectively for two calls, the first of which has a
    validator that raises. *)
Definition failing_first : World (W:=nat) :=
  start (tools_response ["failing"; "nope"; "echo_tool"]) [echo_tool; failing_tool].
Definition fragile_first : World (W:=nat) :=
  start (tools_response ["fragile"; "echo_tool"]) [echo_tool; fragile_tool].

(** A store with a one-turn history: the list 1 holds the content 2, whose
    parts list 3 holds the dict 4. *)
Definition small_heap : gmap positive Aliasing.obj :=
  list_to_map [(1%positive, Aliasing.OList [2%positive]);
               (2%positive, Aliasing.OContent "system" 3%positive);
               (3%positive, Aliasing.OList [4%positive]);
               (4%positive, Aliasing.ODict [("text", PStr "Be helpful.")])].
Definition small_client : Aliasing.client_obj := {| Aliasing.history_ref := 1%positive |}.

(** The roles of the history, in order. *)
Definition histories {W} (w : World (W:=W)) : list string := role <$> history (client w).

(** ** More of the Python library: [str] methods *)

(** [needle in hay] on strings. *)
Fixpoint str_contains (needle hay : string) : bool :=
  String.prefix needle hay
  || match hay with
     | EmptyString => false
     | String _ hay' => str_contains needle hay'
     end.

(** [s.replace(old, new)]: the occurrences of [old] are replaced from the
    left and do not overlap; an empty [old] matches before every code point
    and at the end. *)
Fixpoint str_replace_go (old new : string) (skip : nat) (s : string) : string :=
  match s with
  | EmptyString => EmptyString
  | String c s' =>
      match skip with
      | S k => str_replace_go old new k s'
      | O =>
          if String.prefix old s
          then new +:+ str_replace_go old new (String.length old - 1) s'
          else String c (str_replace_go old new 0 s')
      end
  end.
Fixpoint str_interleave (new s : string) : string :=
  match s with
  | EmptyString => new
  | String c s' =>
      if is_continuation c then String c (str_interleave new s')
      else new +:+ String c (str_interleave new s')
  end.
Definition str_replace (old new s : string) : string :=
  match old with
  | EmptyString => str_interleave new s
  | _ => str_replace_go old new 0 s
  end.

(** [s.strip()] removes the white space at both ends. The characters for
    which [str.isspace] holds are 29: tab to carriage return, the separators
    28 to 31, the space, U+0085, U+00A0, U+1680, U+2000 to U+200A, U+2028,
    U+2029, U+202F, U+205F and U+3000; here are their UTF-8 texts. *)
Definition utf8 (bytes : list nat) : string :=
  string_of_list_ascii (ascii_of_nat <$> bytes).
Definition white_space : list string :=
  utf8 <$> [[9]; [10]; [11]; [12]; [13]; [28]; [29]; [30]; [31]; [32];
            [194; 133]; [194; 160]; [225; 154; 128];
            [226; 128; 128]; [226; 128; 129]; [226; 128; 130]; [226; 128; 131];
            [226; 128; 132]; [226; 128; 133]; [226; 128; 134]; [226; 128; 135];
            [226; 128; 136]; [226; 128; 137]; [226; 128; 138];
            [226; 128; 168]; [226; 128; 169]; [226; 128; 175];
            [226; 129; 159]; [227; 128; 128]]%nat.

Definition str_rev (s : string) : string :=
  string_of_list_ascii (rev (list_ascii_of_string s)).
Fixpoint str_drop (n : nat) (s : string) : string :=
  match n, s with
  | S k, String _ s' => str_drop k s'
  | _, _ => s
  end.

(** Removing the texts of [spaces] from the front of [s], at most [fuel]
    times; every removal shortens [s]. *)
Fixpoint strip_front (spaces : list string) (fuel : nat) (s : string) : string :=
  match fuel with
  | O => s
  | S fuel' =>
      match List.find (λ space, String.prefix space s) spaces with
      | Some space => strip_front spaces fuel' (str_drop (String.length space) s)
      | None => s
      end
  end.
Definition str_lstrip (s : string) : string :=
  strip_front white_space (String.length s) s.
Definition str_rstrip (s : string) : string :=
  str_rev (strip_front (str_rev <$> white_space) (String.length s) (str_rev s)).
Definition str_strip (s : string) : string := str_rstrip (str_lstrip s).

(** ** class MockGeminiAPI *)

(** [text += part['text']] over the parts of a message; a text that is not
    a string cannot be concatenated. *)
Fixpoint concat_texts (text : string) (ps : list (odict pyval)) : result string :=
  match ps with
  | [] => Return text
  | part :: ps' =>
      match odict_get "text" part with
      | Some (PStr t) => concat_texts (text +:+ t) ps'
      | Some _ => Raise (TypeError "can only concatenate str to str")
      | None => concat_texts text ps'
      end
  end.

Definition math_words : list string :=
  ["calculate"; "math"; "+"; "-"; "*"; "/"; "compute"].

Definition ready_text : string := "I'm ready to help! What would you like to do?".

Definition math_call (text : string) : Response :=
  {| resp_text := None;
     resp_tool_calls :=
       Some [{| tc_name := Some "math_calculator";
                tc_parameters := Some (PDict [("expression", PStr text)]) |}] |}.

Definition echo_call (text : string) : Response :=
  {| resp_text := None;
     resp_tool_calls :=
       Some [{| tc_name := Some "echo_tool";
                tc_parameters :=
                  Some (PDict [("message", PStr (str_strip (str_replace "echo" "" text)))]) |}] |}.

Definition default_reply (text : string) : Response :=
  {| resp_text :=
       Some ("I understand you said: '" +:+ text
             +:+ "'. I can help with math calculations or echo messages. Try asking me to calculate something or echo a message!");
     resp_tool_calls := None |}.

(** MockGeminiAPI.generate_content; the simulated delay has no effect on
    the answer. *)
Definition MockGeminiAPI_generate_content {W} {L : str_methods}
    (contents : list Content)
    (tool_config : option pyval) (system_instruction : option string)
  : collab (W:=W) Response :=
  λ e,
    let user_messages := List.filter (λ c, String.eqb (role c) "user") contents in
    match last user_messages with
    | None => (e, Return {| resp_text := Some ready_text; resp_tool_calls := None |})
    | Some last_message =>
        match concat_texts "" (parts last_message) with
        | Raise x => (e, Raise x)
        | Return text =>
            let text_lower := str_lower text in
            if existsb (λ word, str_contains word text_lower) math_words
            then (e, Return (math_call text))
            else if str_contains "echo" text_lower
                 then (e, Return (echo_call text))
                 else (e, Return (default_reply text))
        end
    end.

Definition MockGeminiAPI {W} {L : str_methods} : GeminiAPI (W:=W) :=
  {| generate_content := MockGeminiAPI_generate_content;
     count_tokens := MockGeminiAPI_count_tokens |}.

(** ** class Config, as the client holds it *)

(** The one [Config] object is held by the client and by its registry;
    [set_user_memory] assigns its attribute. *)
Definition Config_set_user_memory (cfg : Config) (memory : string) : Config :=
  {| api_key := api_key cfg; model := model cfg; max_tokens := max_tokens cfg;
     compression_threshold := compression_threshold cfg;
     cfg_compression_preserve_threshold := cfg_compression_preserve_threshold cfg;
     user_memory := Some memory |}.

Definition set_user_memory {W} (memory : string) : M (W:=W) unit :=
  λ w,
    let c := client w in
    ({| client :=
          {| config := Config_set_user_memory (config c) memory;
             api := api c;
             tool_registry :=
               {| reg_config := Config_set_user_memory (reg_config (tool_registry c)) memory;
                  tools := tools (tool_registry c) |};
             history := history c;
             compression_token_threshold := compression_token_threshold c;
             compression_preserve_threshold := compression_preserve_threshold c |};
        env := env w; trace := trace w |},
     Return tt).

(** ** example_tools.py *)

Definition AttributeError (msg : string) : exn :=
  {| exn_class := "AttributeError"; exn_str := msg |}.

(** [params[k]] and [params.get(k, d)] for a string [k]. *)
Definition py_getitem (params : pyval) (k : string) : result pyval :=
  match params with
  | PDict d =>
      match odict_get k d with
      | Some v => Return v
      | None => Raise (KeyError k)
      end
  | _ => Raise (TypeError "object cannot be indexed by a str")
  end.

Definition py_get (params : pyval) (k : string) (d : pyval) : result pyval :=
  match params with
  | PDict kvs => Return (default d (odict_get k kvs))
  | _ => Raise (AttributeError "object has no attribute 'get'")
  end.

(** [isinstance(v, int)] with the value as an integer: [bool] is a subclass
    of [int]. *)
Definition as_int (v : pyval) : option Z :=
  match v with
  | PInt z => Some z
  | PBool b => Some (if b then 1 else 0)
  | _ => None
  end.

(** The truth value of an object. *)
Definition py_truthy (v : pyval) : bool :=
  match v with
  | PNone => false
  | PBool b => b
  | PInt z => negb (z =? 0)
  | PStr s => negb (String.eqb s "")
  | PList xs => match xs with [] => false | _ => true end
  | PDict kvs => match kvs with [] => false | _ => true end
  | PSet xs => match xs with [] => false | _ => true end
  end.

(** [v == s] and [v in l] for strings [s] and a list [l] of strings. *)
Definition is_str (v : pyval) (s : string) : bool :=
  match v with
  | PStr t => String.eqb t s
  | _ => false
  end.
Definition str_in (v : pyval) (l : list string) : bool := existsb (is_str v) l.

(** Dictionaries with arbitrary keys: lists, dicts and sets cannot be
    keys, [True] and [1] are the same key. *)
Definition hashable (v : pyval) : bool :=
  match v with
  | PList _ | PDict _ | PSet _ => false
  | _ => true
  end.

Definition key_eqb (a b : pyval) : bool :=
  match a, b with
  | PNone, PNone => true
  | PStr s, PStr t => String.eqb s t
  | PStr _, _ | _, PStr _ => false
  | _, _ =>
      match as_int a, as_int b with
      | Some x, Some y => x =? y
      | _, _ => false
      end
  end.

Definition pdict : Type := list (pyval * pyval).

Fixpoint pdict_get (k : pyval) (d : pdict) : option pyval :=
  match d with
  | [] => None
  | (k', v) :: d' => if key_eqb k k' then Some v else pdict_get k d'
  end.

Fixpoint pdict_set (k v : pyval) (d : pdict) : pdict :=
  match d with
  | [] => [(k, v)]
  | (k', v') :: d' =>
      if key_eqb k k' then (k', v) :: d' else (k', v') :: pdict_set k v d'
  end.

Section Examples.

(** [repr(s)] of a string, [re.search(pattern, s, re.IGNORECASE)] as a
    truth value, and [eval(expression, allowed_names, {})], of the standard
    library. *)
Variable repr_str : string → string.
Variable re_search : string → string → bool.
Variable py_eval : string → result pyval.

(** [repr(v)] and [str(v)], the latter being what an f-string inserts. *)
Fixpoint py_repr (v : pyval) : string :=
  match v with
  | PNone => "None"
  | PBool true => "True"
  | PBool false => "False"
  | PInt z => pretty z
  | PStr s => repr_str s
  | PList xs => "[" +:+ str_join ", " (List.map py_repr xs) +:+ "]"
  | PDict kvs =>
      "{" +:+ str_join ", "
                (List.map (λ kv, match kv with
                                 | (k, x) => repr_str k +:+ ": " +:+ py_repr x
                                 end) kvs)
      +:+ "}"
  | PSet [] => "set()"
  | PSet xs => "{" +:+ str_join ", " (List.map py_repr xs) +:+ "}"
  end.

Definition py_str (v : pyval) : string :=
  match v with
  | PStr s => s
  | _ => py_repr v
  end.

(** *** class MathCalculatorTool *)

Definition unsafe_patterns : list string :=
  ["import\s+"; "__\w+__"; "exec\s*\("; "eval\s*\("; "open\s*\("; "file\s*\("].

(** The checks after the base validation, on the dict [d]. *)
Definition MathCalculatorTool_checks (d : odict pyval) : option string :=
  match odict_get "expression" d with
  | None => Some "Missing required parameter: expression"
  | Some (PStr expression) =>
      if String.eqb (str_strip expression) ""
      then Some "Expression cannot be empty"
      else if existsb (λ pattern, re_search pattern expression) unsafe_patterns
           then Some ("Expression contains potentially unsafe operations: " +:+ expression)
           else None
  | Some _ => Some "Expression must be a string"
  end.

(** [base_validation = super().validate_tool_params(params)], then the
    checks of the subclass. *)
Definition validate_with {W} (checks : odict pyval → option string) (params : pyval)
  : collab (W:=W) (option string) :=
  λ e, match BaseTool_validate_tool_params params e with
       | (e', Raise x) => (e', Raise x)
       | (e', Return base_validation) =>
           if str_truthy base_validation then (e', Return base_validation)
           else match params with
                | PDict d => (e', Return (checks d))
                | _ => (e', Raise (TypeError "argument is not iterable"))
                end
       end.

Definition MathCalculatorTool_get_description {W} (params : pyval) : collab (W:=W) string :=
  λ e, match py_get params "expression" (PStr "unknown") with
       | Return expression =>
           (e, Return ("Calculating the result of: " +:+ py_str expression))
       | Raise x => (e, Raise x)
       end.

Definition MathCalculatorTool_execute {W} (params : pyval) : collab (W:=W) pyval :=
  λ e, match py_getitem params "expression" with
       | Raise x => (e, Raise x)
       | Return (PStr s) =>
           let expression := str_strip s in
           match py_eval expression with
           | Return r =>
               (e, Return (PDict
                  [("llmContent",
                    PStr ("The result of " +:+ expression +:+ " is " +:+ py_str r));
                   ("returnDisplay",
                    PStr ("**Calculation Result:**" +:+ nl +:+ nl +:+ "`" +:+ expression
                          +:+ " = " +:+ py_str r +:+ "`"));
                   ("expression", PStr expression);
                   ("result", r)]))
           | Raise ex =>
               let error_msg :=
                 "Error calculating '" +:+ expression +:+ "': " +:+ exn_str ex in
               (e, Return (PDict
                  [("llmContent",
                    PStr ("Failed to calculate " +:+ expression +:+ ": " +:+ exn_str ex));
                   ("returnDisplay",
                    PStr ("**Calculation Error:**" +:+ nl +:+ nl +:+ "```" +:+ nl
                          +:+ error_msg +:+ nl +:+ "```"));
                   ("expression", PStr expression);
                   ("error", PStr (exn_str ex))]))
           end
       | Return _ => (e, Raise (AttributeError "object has no attribute 'strip'"))
       end.

Definition MathCalculatorTool {W} : BaseTool (W:=W) :=
  {| name := "math_calculator";
     display_name := "Math Calculator";
     description := "Calculates the result of mathematical expressions. Supports basic arithmetic operations (+, -, *, /, **, %, parentheses).";
     parameter_schema :=
       PDict [("type", PStr "object");
              ("properties",
               PDict [("expression",
                       PDict [("type", PStr "string");
                              ("description",
                               PStr "The mathematical expression to evaluate (e.g., '2 + 3 * 4', '(10 + 5) / 3')")])]);
              ("required", PList [PStr "expression"])];
     is_output_markdown := false;
     can_update_output := false;
     validate_tool_params := validate_with MathCalculatorTool_checks;
     get_description := MathCalculatorTool_get_description;
     should_confirm_execute := BaseTool_should_confirm_execute;
     execute := MathCalculatorTool_execute |}.

(** *** class EchoTool *)

Definition EchoTool_checks (d : odict pyval) : option string :=
  match odict_get "message" d with
  | None => Some "Missing required parameter: message"
  | Some (PStr _) =>
      match as_int (default (PInt 1) (odict_get "repeat_count" d)) with
      | Some n =>
          if (n <? 1) || (5 <? n)
          then Some "repeat_count must be an integer between 1 and 5"
          else None
      | None => Some "repeat_count must be an integer between 1 and 5"
      end
  | Some _ => Some "Message must be a string"
  end.

Definition EchoTool_get_description {W} (params : pyval) : collab (W:=W) string :=
  λ e, match py_get params "message" (PStr "unknown"),
             py_get params "repeat_count" (PInt 1) with
       | Return message, Return repeat_count =>
           if match as_int repeat_count with Some n => n =? 1 | None => false end
           then (e, Return ("Echoing message: '" +:+ py_str message +:+ "'"))
           else (e, Return ("Echoing message '" +:+ py_str message +:+ "' "
                            +:+ py_str repeat_count +:+ " times"))
       | Raise x, _ | _, Raise x => (e, Raise x)
       end.

(** The list the loop over [range(repeat_count)] builds. *)
Definition repeated_messages (n : Z) (message : pyval) : list pyval :=
  (λ i : nat, if 1 <? n
              then PStr (pretty (S i) +:+ ". " +:+ py_str message)
              else message) <$> seq 0 (Z.to_nat n).

Definition EchoTool_execute {W} (params : pyval) : collab (W:=W) pyval :=
  λ e, match py_getitem params "message" with
       | Raise x => (e, Raise x)
       | Return message =>
           match py_get params "repeat_count" (PInt 1) with
           | Raise x => (e, Raise x)
           | Return repeat_count =>
               match as_int repeat_count with
               | None => (e, Raise (TypeError "object cannot be interpreted as an integer"))
               | Some n =>
                   match join_texts (repeated_messages n message) with
                   | Raise x => (e, Raise x)
                   | Return lines =>
                       let echoed_content := str_join nl lines in
                       (e, Return (PDict
                          [("llmContent", PStr ("Echoed: " +:+ echoed_content));
                           ("returnDisplay",
                            PStr ("**Echo Output:**" +:+ nl +:+ nl +:+ echoed_content));
                           ("original_message", message);
                           ("repeat_count", repeat_count);
                           ("echoed_content", PStr echoed_content)]))
                   end
               end
           end
       end.

Definition EchoTool {W} : BaseTool (W:=W) :=
  {| name := "echo_tool";
     display_name := "Echo Tool";
     description := "Echoes back the provided message. Useful for testing and debugging.";
     parameter_schema :=
       PDict [("type", PStr "object");
              ("properties",
               PDict [("message",
                       PDict [("type", PStr "string");
                              ("description", PStr "The message to echo back")]);
                      ("repeat_count",
                       PDict [("type", PStr "integer");
                              ("description",
                               PStr "Number of times to repeat the message (default: 1, max: 5)");
                              ("minimum", PInt 1);
                              ("maximum", PInt 5);
                              ("default", PInt 1)])]);
              ("required", PList [PStr "message"])];
     is_output_markdown := true;
     can_update_output := false;
     validate_tool_params := validate_with EchoTool_checks;
     get_description := EchoTool_get_description;
     should_confirm_execute := BaseTool_should_confirm_execute;
     execute := EchoTool_execute |}.

(** *** class MemoryTool *)

(** The state of the collaborators is the [memory_store] of the memory
    tool that was constructed last. *)

Definition memory_actions : list string := ["store"; "retrieve"; "update"; "clear"].

Definition MemoryTool_checks (d : odict pyval) : option string :=
  let action := default PNone (odict_get "action" d) in
  if negb (py_truthy action) then Some "Missing required parameter: action"
  else if negb (str_in action memory_actions)
  then Some ("Invalid action: " +:+ py_str action
             +:+ ". Must be one of: store, retrieve, update, clear")
  else if str_in action ["store"; "retrieve"; "update"] && negb (odict_in "key" d)
  then Some ("Action '" +:+ py_str action +:+ "' requires a 'key' parameter")
  else if str_in action ["store"; "update"] && negb (odict_in "value" d)
  then Some ("Action '" +:+ py_str action +:+ "' requires a 'value' parameter")
  else None.

(** [value[:50]]; slicing a dict raises (a [KeyError] from Python 3.12
    on). *)
Definition py_slice50 (v : pyval) : result pyval :=
  match v with
  | PStr s => Return (PStr (str_take 50 s))
  | PList xs => Return (PList (take 50 xs))
  | _ => Raise (TypeError "object is not subscriptable")
  end.

Definition MemoryTool_get_description {W} (params : pyval) : collab (W:=W) string :=
  λ e, match py_get params "action" (PStr "unknown"),
             py_get params "key" (PStr ""),
             py_get params "value" (PStr "") with
       | Return action, Return key, Return value =>
           if is_str action "store"
           then match py_slice50 value with
                | Return v50 =>
                    (e, Return ("Storing memory item '" +:+ py_str key +:+ "': "
                                +:+ py_str v50 +:+ "..."))
                | Raise x => (e, Raise x)
                end
           else if is_str action "retrieve"
           then (e, Return ("Retrieving memory item '" +:+ py_str key +:+ "'"))
           else if is_str action "update"
           then match py_slice50 value with
                | Return v50 =>
                    (e, Return ("Updating memory item '" +:+ py_str key +:+ "': "
                                +:+ py_str v50 +:+ "..."))
                | Raise x => (e, Raise x)
                end
           else if is_str action "clear"
           then (e, Return "Clearing all memory")
           else (e, Return ("Performing memory action: " +:+ py_str action))
       | Raise x, _, _ | _, Raise x, _ | _, _, Raise x => (e, Raise x)
       end.

(** The exception of a dict operation on a key that cannot be hashed. *)
Definition type_name (v : pyval) : string :=
  match v with
  | PNone => "NoneType"
  | PBool _ => "bool"
  | PInt _ => "int"
  | PStr _ => "str"
  | PList _ => "list"
  | PDict _ => "dict"
  | PSet _ => "set"
  end.
Definition unhashable (key : pyval) : exn :=
  TypeError ("unhashable type: '" +:+ type_name key +:+ "'").

Definition stored_result (action key value : pyval) : pyval :=
  PDict [("llmContent", PStr ("Stored memory item '" +:+ py_str key +:+ "'"));
         ("returnDisplay",
          PStr ("**Memory Stored:**" +:+ nl +:+ nl +:+ "- **Key:** " +:+ py_str key
                +:+ nl +:+ "- **Value:** " +:+ py_str value));
         ("action", action); ("key", key); ("value", value);
         ("success", PBool true)].

Definition retrieved_result (action key stored_value : pyval) : pyval :=
  PDict [("llmContent",
          PStr ("Retrieved memory item '" +:+ py_str key +:+ "': " +:+ py_str stored_value));
         ("returnDisplay",
          PStr ("**Memory Retrieved:**" +:+ nl +:+ nl +:+ "- **Key:** " +:+ py_str key
                +:+ nl +:+ "- **Value:** " +:+ py_str stored_value));
         ("action", action); ("key", key); ("value", stored_value);
         ("success", PBool true)].

Definition not_found_result (action key : pyval) : pyval :=
  PDict [("llmContent", PStr ("Memory item '" +:+ py_str key +:+ "' not found"));
         ("returnDisplay",
          PStr ("**Memory Not Found:**" +:+ nl +:+ nl
                +:+ "No memory item found with key '" +:+ py_str key +:+ "'"));
         ("action", action); ("key", key);
         ("success", PBool false);
         ("error", PStr "Key not found")].

Definition updated_result (action key old_value value : pyval) : pyval :=
  PDict [("llmContent",
          PStr ("Updated memory item '" +:+ py_str key +:+ "' from '" +:+ py_str old_value
                +:+ "' to '" +:+ py_str value +:+ "'"));
         ("returnDisplay",
          PStr ("**Memory Updated:**" +:+ nl +:+ nl +:+ "- **Key:** " +:+ py_str key
                +:+ nl +:+ "- **Old Value:** " +:+ py_str old_value
                +:+ nl +:+ "- **New Value:** " +:+ py_str value));
         ("action", action); ("key", key);
         ("old_value", old_value); ("new_value", value);
         ("success", PBool true)].

Definition created_result (action key value : pyval) : pyval :=
  PDict [("llmContent",
          PStr ("Memory item '" +:+ py_str key +:+ "' didn't exist, stored as new item"));
         ("returnDisplay",
          PStr ("**Memory Created:**" +:+ nl +:+ nl +:+ "- **Key:** " +:+ py_str key
                +:+ nl +:+ "- **Value:** " +:+ py_str value +:+ nl +:+ nl
                +:+ "*Note: Key didn't exist, so it was created as a new item.*"));
         ("action", action); ("key", key); ("value", value);
         ("success", PBool true)].

Definition cleared_result (action : pyval) (cleared_count : nat) : pyval :=
  PDict [("llmContent",
          PStr ("Cleared all memory (" +:+ pretty cleared_count +:+ " items)"));
         ("returnDisplay",
          PStr ("**Memory Cleared:**" +:+ nl +:+ nl +:+ "Removed "
                +:+ pretty cleared_count +:+ " memory items."));
         ("action", action);
         ("cleared_count", PInt (Z.of_nat cleared_count));
         ("success", PBool true)].

Definition unknown_action_result (action : pyval) : pyval :=
  PDict [("llmContent", PStr ("Unknown memory action: " +:+ py_str action));
         ("returnDisplay",
          PStr ("**Error:**" +:+ nl +:+ nl +:+ "Unknown memory action: " +:+ py_str action));
         ("action", action);
         ("success", PBool false);
         ("error", PStr ("Unknown action: " +:+ py_str action))].

Definition MemoryTool_execute (params : pyval) : collab (W:=pdict) pyval :=
  λ memory_store,
    match py_getitem params "action",
          py_get params "key" PNone,
          py_get params "value" PNone with
    | Return action, Return key, Return value =>
        if is_str action "store"
        then if hashable key
             then (pdict_set key value memory_store,
                   Return (stored_result action key value))
             else (memory_store, Raise (unhashable key))
        else if is_str action "retrieve"
        then if hashable key
             then match pdict_get key memory_store with
                  | Some stored_value =>
                      (memory_store, Return (retrieved_result action key stored_value))
                  | None => (memory_store, Return (not_found_result action key))
                  end
             else (memory_store, Raise (unhashable key))
        else if is_str action "update"
        then if hashable key
             then match pdict_get key memory_store with
                  | Some old_value =>
                      (pdict_set key value memory_store,
                       Return (updated_result action key old_value value))
                  | None =>
                      (pdict_set key value memory_store,
                       Return (created_result action key value))
                  end
             else (memory_store, Raise (unhashable key))
        else if is_str action "clear"
        then ([], Return (cleared_result action (length memory_store)))
        else (memory_store, Return (unknown_action_result action))
    | Raise x, _, _ | _, Raise x, _ | _, _, Raise x => (memory_store, Raise x)
    end.

Definition MemoryTool : BaseTool (W:=pdict) :=
  {| name := "memory_tool";
     display_name := "Memory Tool";
     description := "Manages user memory and context. Can store, retrieve, or update information that should be remembered across conversations.";
     parameter_schema :=
       PDict [("type", PStr "object");
              ("properties",
               PDict [("action",
                       PDict [("type", PStr "string");
                              ("enum", PList [PStr "store"; PStr "retrieve";
                                              PStr "update"; PStr "clear"]);
                              ("description",
                               PStr "The action to perform: store new info, retrieve existing info, update existing info, or clear all memory")]);
                      ("key",
                       PDict [("type", PStr "string");
                              ("description",
                               PStr "The key/identifier for the memory item (required for store, retrieve, update)")]);
                      ("value",
                       PDict [("type", PStr "string");
                              ("description",
                               PStr "The value to store or update (required for store and update actions)")])]);
              ("required", PList [PStr "action"])];
     is_output_markdown := true;
     can_update_output := false;
     validate_tool_params := validate_with MemoryTool_checks;
     get_description := MemoryTool_get_description;
     should_confirm_execute := BaseTool_should_confirm_execute;
     execute := MemoryTool_execute |}.

(** *** register_example_tools *)

(** [for x in l: f x] *)
Fixpoint for_each {W A} (f : A → M (W:=W) unit) (l : list A) : M (W:=W) unit :=
  match l with
  | [] => ret tt
  | x :: l' => bind (f x) (λ _, for_each f l')
  end.

(** [MemoryTool()] starts with an empty [memory_store]. *)
Definition new_memory_store : M (W:=pdict) unit :=
  λ w, ({| client := client w; env := []; trace := trace w |}, Return tt).

Definition example_tools : list (BaseTool (W:=pdict)) :=
  [MathCalculatorTool; EchoTool; MemoryTool].

Definition register_example_tools : M (W:=pdict) unit :=
  bind new_memory_store (λ _,
  bind (for_each register_tool example_tools) (λ _,
  bind (print ("Registered " +:+ pretty (length example_tools) +:+ " example tools:")) (λ _,
  for_each (λ tool, print ("  - " +:+ display_name tool +:+ " (" +:+ name tool +:+ ")"))
           example_tools))).

End Examples.

(** ** Notions and doubles for the further statements *)

(** What of the client is not its history. *)
Definition settings {W} (c : GeminiClient (W:=W))
  : Config * GeminiAPI (W:=W) * ToolRegistry (W:=W) * Q * Q :=
  (config c, api c, tool_registry c,
   compression_token_threshold c, compression_preserve_threshold c).

(** Running [m] changes nothing of the client but its history, whether [m]
    returns or raises. *)
Definition history_only {W A} (m : M (W:=W) A) : Prop :=
  ∀ w, settings (client (m w).1) = settings (client w).

(** Every text part of the contents is a string. *)
Definition texts_are_strings (contents : list Content) : Prop :=
  Forall (λ c, Forall (λ part, ∀ t, odict_get "text" part = Some t → ∃ s, t = PStr s)
                      (parts c))
         contents.

(** A text turn, as the client itself records them. *)
Definition turn (rt : string * string) : Content := from_text rt.1 rt.2.

(** Doubles for [repr], [re.search] and [eval]: quotes without escapes,
    containment of the word [import], and a table of expressions: a sum, a
    difference of sets, whose value [json.dumps] refuses, and a division by
    zero for every other text. *)
Definition simple_repr (s : string) : string := "'" +:+ s +:+ "'".
Definition import_search (pattern s : string) : bool :=
  String.eqb pattern "import\s+"
  && str_contains "import " (str_map simple_lower_char s).
Definition table_eval (expression : string) : result pyval :=
  if String.eqb expression "2 + 3" then Return (PInt 5)
  else if String.eqb expression "{1} - {2}" then Return (PSet [PInt 1])
  else Raise {| exn_class := "ZeroDivisionError"; exn_str := "division by zero" |}.

(** A session of the mock backend with the example tools registered. *)
Definition example_world : World (W:=pdict) :=
  (register_example_tools simple_repr import_search table_eval
     {| client := init default_Config MockGeminiAPI; env := []; trace := [] |}).1.

Definition echo_params (message : string) (n : Z) : pyval :=
  PDict [("message", PStr message); ("repeat_count", PInt n)].


(** A store with the list object 6, which holds the content 2 of
    [small_heap]. *)
Definition caller_heap : gmap positive Aliasing.obj :=
  <[6%positive := Aliasing.OList [2%positive]]> small_heap.

(** The configuration of example_chat.py's [ChatInterface], and its client
    before a tool is registered. *)
Definition demo_Config : Config :=
  {| api_key := Some "demo-key"; model := "gemini-pro"; max_tokens := 4000;
     compression_threshold := (7 # 10)%Q;
     cfg_compression_preserve_threshold := (3 # 10)%Q;
     user_memory :=
       Some "User prefers concise explanations and enjoys testing new features." |}.

Definition demo_start : World (W:=pdict) :=
  {| client := init demo_Config MockGeminiAPI; env := []; trace := [] |}.

(** ** Notions used by the statements *)

Section Notions.
Context {W : Type} {L : str_methods}.
Variable json_dumps : pyval → result string.

(** The first entry of the history is the system turn. *)
Definition head_system (h : list Content) : Prop :=
  role <$> head h = Some "system".

(** The split point of [try_compress_chat]. *)
Definition preserve_count_of (c : GeminiClient (W:=W)) : Z :=
  Z.max 2 (py_int (inject_Z (Z.of_nat (length (history c)))
                   * compression_preserve_threshold c)).
Definition split_index_of (c : GeminiClient (W:=W)) : Z :=
  Z.of_nat (length (history c)) - preserve_count_of c.
Definition compression_target (c : GeminiClient (W:=W)) : list Content :=
  slice_to (history c) (split_index_of c).

(** The two synthetic turns that replace the compressed prefix. *)
Definition summary_turns (summary : string) : list Content :=
  [from_text "user" ("Previous conversation summary: " +:+ summary);
   from_text "model" "Got it. Thanks for the additional context!"].

(** The parameters the pipeline hands to the tool. *)
Definition call_params (tool_call : ToolCall) : pyval :=
  default (PDict []) (tc_parameters tool_call).

(** A collaborator method that returns in every state. *)
Definition never_raises {A} (f : collab (W:=W) A) : Prop :=
  ∀ e, ∃ e' a, f e = (e', Return a).

(** The validator and the confirmation gate of [tool] return on [params],
    and so does the description function where the pipeline calls it: after
    the gate has asked for confirmation. *)
Definition well_behaved (tool : BaseTool (W:=W)) (params : pyval) : Prop :=
  never_raises (validate_tool_params tool params)
  ∧ ∀ e, ∃ e1 confirmation,
      should_confirm_execute tool params e = (e1, Return confirmation)
      ∧ (needs_confirmation confirmation = true →
         ∃ e2 d, get_description tool params e1 = (e2, Return d)).

(** The call carries a name, and the tool registered under it, if any, is
    well behaved on the call's parameters. *)
Definition pipeline_safe (c : GeminiClient (W:=W)) (tool_call : ToolCall) : Prop :=
  ∃ n, tc_name tool_call = Some n
       ∧ ∀ tool, get_tool (tool_registry c) n = Some tool
                 → well_behaved tool (call_params tool_call).

(** A result dictionary for the tool [n]: the tool's name and exactly one
    of the keys ['result'] and ['error']. *)
Definition is_tool_result (n : string) (d : ToolResult) : Prop :=
  odict_get "tool_name" d = Some (PStr n)
  ∧ xorb (odict_in "result" d) (odict_in "error" d) = true.

(** The calls are invoked one after the other, each from the world its
    predecessor left, and each returns its own result. *)
Inductive runs_in_order : World (W:=W) → list ToolCall → list ToolResult
                          → World (W:=W) → Prop :=
| rio_nil w : runs_in_order w [] [] w
| rio_cons w tool_call r w1 calls rs w2 :
    _execute_tool_call tool_call w = (w1, Return r) →
    runs_in_order w1 calls rs w2 →
    runs_in_order w (tool_call :: calls) (r :: rs) w2.

(** The [execute] events of a trace, in order. *)
Definition executed (t : list event) : list string :=
  omap (λ ev, match ev with EvExecute n _ => Some n | _ => None end) t.

(** The operations a caller of the client has; [set_history] is given a
    list that starts with a system turn. *)
Inductive op_step : World (W:=W) → World (W:=W) → Prop :=
| step_send_message message w : op_step w (send_message json_dumps message w).1
| step_try_compress_chat force w : op_step w (try_compress_chat force w).1
| step_reset_chat w : op_step w (reset_chat w).1
| step_get_history w : op_step w (get_history w).1
| step_set_history h w : head_system h → op_step w (set_history h w).1
| step_register_tool tool w : op_step w (register_tool tool w).1.

Inductive reachable : World (W:=W) → Prop :=
| reach_init cfg backend e :
    reachable {| client := init cfg backend; env := e; trace := [] |}
| reach_step w w' : reachable w → op_step w w' → reachable w'.

(** Registering the tools [ts] one after the other. *)
Definition register_all (ts : list (BaseTool (W:=W))) (w : World (W:=W)) : World (W:=W) :=
  foldl (λ w' t, (register_tool t w').1) w ts.

(** Running [m] keeps the property [P] of the history, whether [m]
    returns or raises. *)
Definition keeps (P : list Content → Prop) {A} (m : M (W:=W) A) : Prop :=
  ∀ w, P (history (client w)) → P (history (client (m w).1)).

(** The world at the point where [send_message] runs the automatic
    compression check. *)
Definition at_compression_check (message : string) (w : World (W:=W)) : World (W:=W) :=
  (history_append (from_text "user" message) w).1.

End Notions.

(** ** Facts about the monad and the pipeline *)

Arguments summary_prompt_of : simpl never.
Arguments get_core_system_prompt : simpl never.
Arguments from_text : simpl never.

Section Facts.
Context {W : Type} {L : str_methods}.
Variable json_dumps : pyval → result string.

Implicit Types (w : World (W:=W)) (c : GeminiClient (W:=W)) (tool : BaseTool (W:=W)).

Ltac unfold_M :=
  unfold bind, ret, raise, get_self, put_self, call, print, try_except,
    assign_history, history_append in *.

Ltac run_M := unfold_M; simpl in *; repeat (case_match; simpl in *; simplify_eq).

Lemma with_history_same c : with_history c (history c) = c.
Proof. by destruct c. Qed.

Lemma history_with_history c h : history (with_history c h) = h.
Proof. done. Qed.

(** The pipeline never touches the client object. *)
Lemma execute_tool_call_client tool_call w :
  client (_execute_tool_call tool_call w).1 = client w.
Proof. unfold _execute_tool_call. run_M; done. Qed.

Lemma tool_call_loop_client calls : ∀ acc w,
  client (tool_call_loop acc calls w).1 = client w.
Proof.
  induction calls as [|tool_call calls IH]; intros acc w; simpl; [done|].
  unfold bind. pose proof (execute_tool_call_client tool_call w) as Hc.
  destruct (_execute_tool_call tool_call w) as [w1 [r|e]]; simpl in *; [|done].
  by rewrite IH.
Qed.

Lemma is_tool_result_error n msg : is_tool_result n (error_result n msg).
Proof. by split. Qed.

Lemma is_tool_result_success n r : is_tool_result n (success_result n r).
Proof. by split. Qed.


Lemma str_truthy_Some o : str_truthy o = true → ∃ reason, o = Some reason ∧ reason ≠ "".
Proof.
  destruct o as [s|]; simpl; [|done]. intros Hs. exists s. split; [done|].
  intros ->. done.
Qed.

(** What the pipeline does for a registered tool whose validator and
    confirmation gate return, and whose description function returns when
    the gate asks for confirmation. *)
Lemma execute_tool_call_found tool_call n tool w :
  tc_name tool_call = Some n →
  get_tool (tool_registry (client w)) n = Some tool →
  well_behaved tool (call_params tool_call) →
  ∃ w' d, _execute_tool_call tool_call w = (w', Return d)
    ∧ ((∃ reason, reason ≠ ""
          ∧ d = error_result n ("Parameter validation failed: " +:+ reason)
          ∧ trace w' = trace w ++ [EvValidate n (call_params tool_call)])
       ∨ (∃ e0 r pre,
            execute tool (call_params tool_call) e0 = (env w', r)
            ∧ trace w' = trace w ++ pre ++ [EvExecute n (call_params tool_call)]
            ∧ executed pre = []
            ∧ d = match r with
                  | Return v => success_result n v
                  | Raise ex => error_result n (exn_str ex)
                  end)).
Proof.
  intros Hn Hget (Hv & Hg). unfold _execute_tool_call, call_params in *.
  set (params := default (PDict []) (tc_parameters tool_call)) in *. clearbody params.
  rewrite Hn. unfold_M. simpl. rewrite Hget.
  destruct (Hv (env w)) as (e1 & v & Ev). rewrite Ev. cbn.
  destruct (str_truthy v) eqn:Etruthy; cbn.
  { apply str_truthy_Some in Etruthy as (reason & -> & Hne).
    eexists _, _. split; [done|]. left. by exists reason. }
  destruct (Hg e1) as (e2 & cf & Ec & Hd). rewrite Ec. cbn.
  destruct (needs_confirmation cf) eqn:Ecf; cbn.
  - destruct (Hd eq_refl) as (e3 & dsc & Ed). rewrite Ed. cbn.
    destruct (execute tool params e3) as [e4 r] eqn:Ex. cbn.
    set (pre := [EvValidate n params; EvShouldConfirm n params;
                 EvGetDescription n params;
                 EvPrint ("Tool execution requires confirmation: " +:+ dsc);
                 EvPrint "Auto-approving for demo..."]).
    destruct r as [x|ex]; cbn; eexists _, _; (split; [reflexivity|]); right;
      exists e3, (execute tool params e3).2, pre; rewrite Ex; cbn;
      (split; [reflexivity|]); (split; [by rewrite <- !app_assoc|]); done.
  - destruct (execute tool params e2) as [e4 r] eqn:Ex. cbn.
    set (pre := [EvValidate n params; EvShouldConfirm n params]).
    destruct r as [x|ex]; cbn; eexists _, _; (split; [reflexivity|]); right;
      exists e2, (execute tool params e2).2, pre; rewrite Ex; cbn;
      (split; [reflexivity|]); (split; [by rewrite <- !app_assoc|]); done.
Qed.

Lemma execute_tool_call_not_found tool_call n w :
  tc_name tool_call = Some n →
  get_tool (tool_registry (client w)) n = None →
  _execute_tool_call tool_call w
  = (w, Return (error_result n ("Tool '" +:+ n +:+ "' not found"))).
Proof.
  intros Hn Hget. unfold _execute_tool_call. rewrite Hn. unfold_M. simpl.
  by rewrite Hget.
Qed.

Lemma execute_tool_call_returns tool_call w :
  pipeline_safe (client w) tool_call →
  ∃ n w' d, tc_name tool_call = Some n
    ∧ _execute_tool_call tool_call w = (w', Return d)
    ∧ is_tool_result n d
    ∧ (get_tool (tool_registry (client w)) n = None
       → w' = w ∧ d = error_result n ("Tool '" +:+ n +:+ "' not found")).
Proof.
  intros (n & Hn & Hsafe). exists n.
  destruct (get_tool (tool_registry (client w)) n) as [tool|] eqn:Hget.
  - destruct (execute_tool_call_found tool_call n tool w Hn Hget (Hsafe _ eq_refl))
      as (w' & d & Hrun & Hd).
    exists w', d. split; [done|]. split; [done|]. split; [|done].
    destruct Hd as [(reason & _ & -> & _)|(e0 & r & pre & _ & _ & _ & ->)].
    + apply is_tool_result_error.
    + destruct r; [apply is_tool_result_success|apply is_tool_result_error].
  - rewrite (execute_tool_call_not_found _ _ _ Hn Hget).
    eexists _, _. split; [done|]. split; [done|]. split; [|done].
    apply is_tool_result_error.
Qed.

(** A reason that Python takes for true stops the call after the
    validator: the only collaborator call is the validation. *)
Lemma validation_failure_skips_execute tool_call n tool w e1 reason :
  tc_name tool_call = Some n →
  get_tool (tool_registry (client w)) n = Some tool →
  validate_tool_params tool (call_params tool_call) (env w) = (e1, Return (Some reason)) →
  reason ≠ "" →
  _execute_tool_call tool_call w
  = ({| client := client w; env := e1;
        trace := trace w ++ [EvValidate n (call_params tool_call)] |},
     Return (error_result n ("Parameter validation failed: " +:+ reason))).
Proof.
  intros Hn Hget Hv Hne. unfold _execute_tool_call, call_params in *.
  rewrite Hn. unfold_M. cbn. rewrite Hget, Hv. cbn.
  destruct (String.eqb_spec reason ""); [done|]. done.
Qed.

(** A validator that raises is not caught. *)
Lemma validator_exception_propagates tool_call n tool w e1 ex :
  tc_name tool_call = Some n →
  get_tool (tool_registry (client w)) n = Some tool →
  validate_tool_params tool (call_params tool_call) (env w) = (e1, Raise ex) →
  _execute_tool_call tool_call w
  = ({| client := client w; env := e1;
        trace := trace w ++ [EvValidate n (call_params tool_call)] |}, Raise ex).
Proof.
  intros Hn Hget Hv. unfold _execute_tool_call, call_params in *.
  rewrite Hn. unfold_M. cbn. by rewrite Hget, Hv.
Qed.

(** C10: for every tool call that carries a ['name'] key, the dictionary
    the invocation step returns holds ['tool_name'] equal to the call's name
    and exactly one of ['result'] and ['error']; the step does return one as
    soon as the validator and the confirmation gate of the tool return, and
    its description function where the gate asks for confirmation. *)
Theorem tool_result_names_tool_and_one_outcome tool_call n w :
  tc_name tool_call = Some n →
  (∀ w' d, _execute_tool_call tool_call w = (w', Return d) → is_tool_result n d)
  ∧ ((∀ tool, get_tool (tool_registry (client w)) n = Some tool
              → well_behaved tool (call_params tool_call))
     → ∃ w' d, _execute_tool_call tool_call w = (w', Return d)).
Proof.
  intros Hn. split.
  - intros w' d. unfold _execute_tool_call. rewrite Hn. unfold_M. cbn.
    intros Hrun. repeat (case_match; cbn in *; simplify_eq);
      first [apply is_tool_result_error | apply is_tool_result_success].
  - intros Hsafe.
    destruct (execute_tool_call_returns tool_call w) as (n' & w' & d & _ & Hrun & _).
    { by exists n. }
    by exists w', d.
Qed.


(** The loop of [send_message] hands every call to the pipeline, in the
    listed order, and collects one result per call. *)
Lemma tool_call_loop_runs_all calls : ∀ acc w,
  Forall (pipeline_safe (client w)) calls →
  ∃ w' rs,
    tool_call_loop acc calls w = (w', Return (acc ++ rs))
    ∧ runs_in_order w calls rs w'
    ∧ client w' = client w
    ∧ Forall2 (λ tool_call r,
                 ∃ n, tc_name tool_call = Some n ∧ is_tool_result n r
                      ∧ (get_tool (tool_registry (client w)) n = None
                         → r = error_result n ("Tool '" +:+ n +:+ "' not found")))
              calls rs.
Proof.
  induction calls as [|tool_call calls IH]; intros acc w Hsafe.
  - exists w, []. rewrite app_nil_r. split; [done|]. split; [constructor|].
    split; [done|constructor].
  - apply Forall_cons in Hsafe as [Hhd Htl].
    destruct (execute_tool_call_returns tool_call w Hhd) as (n & w1 & r & Hn & Hrun & Hr & Hnf).
    assert (client w1 = client w) as Hc.
    { by rewrite <- (execute_tool_call_client tool_call w), Hrun. }
    rewrite <- Hc in Htl.
    destruct (IH (acc ++ [r]) w1 Htl) as (w2 & rs & Hloop & Hord & Hc2 & Hall).
    exists w2, (r :: rs). split; [|split; [|split]].
    + cbn. unfold bind. rewrite Hrun, Hloop. by rewrite <- app_assoc.
    + by econstructor.
    + congruence.
    + constructor.
      * exists n. split; [done|]. split; [done|]. intros Hget. by apply Hnf.
      * rewrite <- Hc. done.
Qed.

(** *** Compression *)

Lemma try_compress_chat_force_ignored force w :
  try_compress_chat force w = try_compress_chat (negb force) w.
Proof. done. Qed.

(** What a compression pass that returns an info has done. *)
Lemma try_compress_chat_fires force w w' info :
  try_compress_chat force w = (w', Return (Some info)) →
  ∃ first rest summary e1 original e3 new,
    history (client w) = first :: rest
    ∧ (2 ≤ length (compression_target (client w)))%nat
    ∧ client w'
      = with_history (client w)
          (([first] ++ summary_turns summary)
           ++ slice_from (history (client w)) (split_index_of (client w)))
    ∧ count_tokens (api (client w)) (history (client w)) (env w) = (e1, Return original)
    ∧ count_tokens (api (client w)) (history (client w')) e3 = (env w', Return new)
    ∧ info = new_ChatCompressionInfo original new
    ∧ ∃ lines e2 summary_response,
        format_lines (compression_target (client w)) = Return lines
        ∧ generate_content (api (client w))
            [from_text "user" (summary_prompt_of (str_join nl lines))] None None e1
          = (e2, Return summary_response)
        ∧ summary = default "Summary not available" (resp_text summary_response).
Proof.
  unfold try_compress_chat, _format_history_for_summary. unfold_M.
  unfold compression_target, split_index_of, preserve_count_of, summary_turns.
  intros Hrun. cbn in Hrun.
  repeat (case_match; cbn in *; simplify_eq).
  eexists _, _, _, _, _, _, _. split; [done|]. split.
  { match goal with H : (length (slice_to _ _) <=? 1)%nat = false |- _ =>
      apply Nat.leb_gt in H; lia end. }
  split; [done|]. split; [done|]. split; [done|]. split; [done|].
  eexists _, _, _. split; [done|]. split; [done|]. done.
Qed.

(** *** The split point *)

Lemma slice_to_length {A} (l : list A) i :
  0 ≤ i ≤ Z.of_nat (length l) → length (slice_to l i) = Z.to_nat i.
Proof.
  intros Hi. unfold slice_to, slice_index.
  destruct (Z.ltb_spec i 0); [lia|]. rewrite length_take. lia.
Qed.

Lemma slice_to_length_neg {A} (l : list A) i :
  i < 0 → (length l ≤ 2)%nat → (length (slice_to l i) < 2)%nat.
Proof.
  intros Hi Hl. unfold slice_to, slice_index.
  destruct (Z.ltb_spec i 0); [|lia]. rewrite length_take. lia.
Qed.

Lemma slice_to_length_le {A} (l : list A) i : (length (slice_to l i) ≤ length l)%nat.
Proof. unfold slice_to. rewrite length_take. lia. Qed.

Lemma slice_to_nonneg {A} (l : list A) i :
  0 ≤ i → slice_to l i = take (Z.to_nat i) l.
Proof.
  intros Hi. unfold slice_to, slice_index. by destruct (Z.ltb_spec i 0); [lia|].
Qed.

Lemma slice_from_nonneg {A} (l : list A) i :
  0 ≤ i → slice_from l i = drop (Z.to_nat i) l.
Proof.
  intros Hi. unfold slice_from, slice_index. by destruct (Z.ltb_spec i 0); [lia|].
Qed.

(** [int] is the floor on the non-negative floats and is at most 0 on the
    others. *)
Lemma py_int_floor x : 0 ≤ Qnum x → py_int x = Qfloor x.
Proof.
  destruct x as [p q]; cbn. intros Hp. apply Z.quot_div_nonneg; lia.
Qed.

Lemma py_int_neg x : Qnum x < 0 → py_int x ≤ 0 ∧ Qfloor x < 0.
Proof.
  destruct x as [p q]; unfold py_int; cbn. intros Hp. split.
  - rewrite <- (Z.opp_involutive p), Z.quot_opp_l by lia.
    pose proof (Z.quot_pos (- p) (Z.pos q)). lia.
  - apply Z.div_lt_upper_bound; lia.
Qed.

Lemma max2_py_int x : Z.max 2 (py_int x) = Z.max 2 (Qfloor x).
Proof.
  destruct (Z.lt_ge_cases (Qnum x) 0) as [Hneg|Hpos].
  - destruct (py_int_neg x Hneg). lia.
  - by rewrite py_int_floor.
Qed.

(** With a fraction of at most 1, at most the whole history is kept. *)
Lemma py_int_fraction_le (n : Z) (q : Q) :
  0 ≤ n → (q <= 1)%Q → py_int (inject_Z n * q) ≤ n.
Proof.
  intros Hn Hq. destruct q as [p d]. unfold Qle in Hq. cbn in Hq.
  unfold py_int. cbn.
  destruct (Z.lt_ge_cases p 0) as [Hneg|Hpos].
  - transitivity 0; [|done].
    pose proof (py_int_neg (n * p # d)) as Hx.
    unfold py_int in Hx. cbn in Hx.
    destruct (Z.eq_dec n 0) as [->|Hn0].
    + rewrite Z.mul_0_l. by rewrite Z.quot_0_l.
    + apply Hx. nia.
  - rewrite Z.quot_div_nonneg by nia.
    apply Z.div_le_upper_bound; [lia|]. nia.
Qed.

Lemma preserve_count_bounds c :
  (compression_preserve_threshold c <= 1)%Q →
  (2 ≤ length (history c))%nat →
  2 ≤ preserve_count_of c ≤ Z.of_nat (length (history c)).
Proof.
  intros Hq Hn. unfold preserve_count_of.
  pose proof (py_int_fraction_le (Z.of_nat (length (history c))) _ ltac:(lia) Hq).
  lia.
Qed.

(** With the preserve fraction 0.3 that [__init__] sets, the compression
    target has fewer than 2 entries exactly when the history has fewer
    than 4. *)
Lemma short_target_iff c :
  compression_preserve_threshold c = (3 # 10)%Q →
  (length (compression_target c) < 2)%nat ↔ (length (history c) < 4)%nat.
Proof.
  intros Hq. unfold compression_target, split_index_of, preserve_count_of.
  rewrite Hq. set (n := length (history c)).
  assert (py_int (inject_Z (Z.of_nat n) * (3 # 10)) = Z.of_nat n * 3 / 10) as ->.
  { unfold py_int. cbn. rewrite Z.quot_div_nonneg by lia. f_equal. }
  pose proof (Z.div_mod (Z.of_nat n * 3) 10 ltac:(lia)) as Hdiv.
  pose proof (Z.mod_pos_bound (Z.of_nat n * 3) 10 ltac:(lia)) as Hmod.
  destruct (decide (n < 2)%nat) as [Hlt|Hge].
  - split; [lia|]. intros _. apply slice_to_length_neg; [lia|]. fold n. lia.
  - rewrite slice_to_length by (fold n; lia). lia.
Qed.

(** C5: when compression fires on a history of length n, it keeps
    preserveCount = max(2, floor(n * preserveFraction)) entries: the new
    history is the old entry 0, the user turn stating the summary, the model
    acknowledgment and then history[splitIndex:] unchanged, with
    splitIndex = n - preserveCount, so that it has preserveCount + 3
    entries. The summary is the text of the backend's answer to the request
    that carries the transcript of history[:splitIndex], made in the state
    the token count left, or the placeholder when the answer has no text.
    The preserve fraction is at most 1, as the spec has it (the client sets
    0.3). *)
Theorem compression_rebuilds_history force w w' info :
  (compression_preserve_threshold (client w) <= 1)%Q →
  try_compress_chat force w = (w', Return (Some info)) →
  let h := history (client w) in
  let n := Z.of_nat (length h) in
  let preserveCount :=
    Z.max 2 (Qfloor (inject_Z n * compression_preserve_threshold (client w))) in
  let splitIndex := n - preserveCount in
  ∃ first lines original e1 e2 summary_response,
    head h = Some first
    ∧ 2 ≤ splitIndex
    ∧ count_tokens (api (client w)) h (env w) = (e1, Return original)
    ∧ format_lines (take (Z.to_nat splitIndex) h) = Return lines
    ∧ generate_content (api (client w))
        [from_text "user" (summary_prompt_of (str_join nl lines))] None None e1
      = (e2, Return summary_response)
    ∧ history (client w')
      = [first;
         from_text "user"
           ("Previous conversation summary: "
            +:+ default "Summary not available" (resp_text summary_response));
         from_text "model" "Got it. Thanks for the additional context!"]
        ++ drop (Z.to_nat splitIndex) h
    ∧ Z.of_nat (length (history (client w'))) = preserveCount + 3.
Proof.
  intros Hq Hrun. cbv zeta.
  destruct (try_compress_chat_fires _ _ _ _ Hrun)
    as (first & rest & summary & e1 & original & e3 & new & Hh & Htarget & Hc
        & Hcount & _ & _ & lines & e2 & summary_response & Hlines & Hgen & ->).
  rewrite <- max2_py_int. fold (preserve_count_of (client w)).
  fold (split_index_of (client w)).
  unfold compression_target in Htarget, Hlines.
  assert (2 ≤ length (history (client w)))%nat as Hlen.
  { pose proof (slice_to_length_le (history (client w)) (split_index_of (client w))).
    lia. }
  pose proof (preserve_count_bounds _ Hq Hlen) as Hb.
  assert (split_index_of (client w)
          = Z.of_nat (length (history (client w))) - preserve_count_of (client w))
    as Hsi by done.
  rewrite slice_to_length in Htarget by lia.
  rewrite slice_to_nonneg in Hlines by lia.
  exists first, lines, original, e1, e2, summary_response.
  split; [by rewrite Hh|]. split; [lia|]. split; [done|]. split; [done|].
  split; [done|].
  rewrite Hc, history_with_history.
  rewrite slice_from_nonneg by lia. split; [done|].
  rewrite length_app, length_drop. cbn. lia.
Qed.

(** C7: the info a compression pass returns has the ratio
    [new / original] when the original token count is positive and the
    ratio 1 when it is 0; the two counts are the backend's counts of the
    history before and after the pass. *)
Theorem compression_ratio_of_pass force w w' info :
  try_compress_chat force w = (w', Return (Some info)) →
  (0 < original_token_count info →
   (compression_ratio info
    == inject_Z (new_token_count info) / inject_Z (original_token_count info))%Q)
  ∧ (original_token_count info = 0 → (compression_ratio info == 1)%Q)
  ∧ (∃ e1, count_tokens (api (client w)) (history (client w)) (env w)
           = (e1, Return (original_token_count info)))
  ∧ (∃ e3, count_tokens (api (client w)) (history (client w')) e3
           = (env w', Return (new_token_count info))).
Proof.
  intros Hrun.
  destruct (try_compress_chat_fires _ _ _ _ Hrun)
    as (first & rest & summary & e1 & original & e3 & new & _ & _ & _ & Ho & Hn & -> & _).
  cbn. unfold post_init. split; [|split; [|split]].
  - intros Hpos. destruct (Z.ltb_spec 0 original); [reflexivity|lia].
  - intros ->. reflexivity.
  - by exists e1.
  - by exists e3.
Qed.

(** A pass on a target of fewer than 2 entries leaves the client alone and
    answers [None], unless the backend's token count raised. *)
Lemma try_compress_chat_short_target force w :
  (length (compression_target (client w)) < 2)%nat →
  client (try_compress_chat force w).1 = client w
  ∧ ((try_compress_chat force w).2 = Return None
     ∨ ∃ e1 ex,
         (2 ≤ length (history (client w)))%nat
         ∧ count_tokens (api (client w)) (history (client w)) (env w) = (e1, Raise ex)
         ∧ (try_compress_chat force w).2 = Raise ex).
Proof.
  unfold compression_target, split_index_of, preserve_count_of.
  intros Hshort. unfold try_compress_chat. unfold_M. cbn -[Nat.ltb].
  destruct (length (history (client w)) <? 2)%nat eqn:Hlen; [by split; [|left]|].
  apply Nat.ltb_ge in Hlen.
  destruct (count_tokens (api (client w)) (history (client w)) (env w))
    as [e1 [original|ex]] eqn:Hcount; cbn -[Nat.ltb].
  - apply Nat.ltb_lt in Hshort. rewrite Hshort. cbn. by split; [|left].
  - split; [done|]. right. by exists e1, ex.
Qed.

(** A pass on a target of at least 2 entries never answers [None],
    whatever the token count is. *)
Lemma try_compress_chat_long_target force w :
  (2 ≤ length (compression_target (client w)))%nat →
  (try_compress_chat force w).2 ≠ Return None.
Proof.
  unfold compression_target, split_index_of, preserve_count_of.
  intros Hlong.
  assert (2 ≤ length (history (client w)))%nat as Hlen.
  { etransitivity; [exact Hlong|]. apply slice_to_length_le. }
  apply Nat.ltb_ge in Hlen, Hlong.
  unfold try_compress_chat, _format_history_for_summary. unfold_M. cbn -[Nat.ltb].
  rewrite Hlen.
  destruct (count_tokens (api (client w)) (history (client w)) (env w))
    as [e1 [original|ex]]; cbn -[Nat.ltb]; [|done].
  rewrite Hlong. clear Hlen Hlong.
  repeat (case_match; cbn in *; simplify_eq); done.
Qed.

(** C3, as the code has it: [try_compress_chat] ignores [force] and makes
    no token-threshold check; with the preserve fraction 0.3 the
    compression target has fewer than 2 entries exactly when the history has
    fewer than 4; on such a history the pass leaves the client alone and
    answers [None] (or passes on the exception of the backend's token
    count), and on every longer one, 4 entries included, it never answers
    [None]. *)
Theorem forced_compression_gate force w :
  compression_preserve_threshold (client w) = (3 # 10)%Q →
  try_compress_chat force w = try_compress_chat (negb force) w
  ∧ ((length (compression_target (client w)) < 2)%nat
     ↔ (length (history (client w)) < 4)%nat)
  ∧ ((length (history (client w)) < 4)%nat →
     client (try_compress_chat force w).1 = client w
     ∧ ((try_compress_chat force w).2 = Return None
        ∨ ∃ e1 ex,
            (2 ≤ length (history (client w)))%nat
            ∧ count_tokens (api (client w)) (history (client w)) (env w)
              = (e1, Raise ex)
            ∧ (try_compress_chat force w).2 = Raise ex))
  ∧ ((4 ≤ length (history (client w)))%nat →
     (try_compress_chat force w).2 ≠ Return None).
Proof.
  intros Hq. pose proof (short_target_iff _ Hq) as Hiff.
  split; [done|]. split; [done|]. split.
  - intros Hlen. apply try_compress_chat_short_target. by apply Hiff.
  - intros Hlen. apply try_compress_chat_long_target.
    destruct (decide (length (compression_target (client w)) < 2)%nat) as [Hs|Hs];
      [apply Hiff in Hs|]; lia.
Qed.

(** *** The system turn *)

Lemma keeps_ret P {A} (a : A) : keeps P (ret (W:=W) a).
Proof. by intros w. Qed.

Lemma keeps_raise P {A} e : keeps P (raise (W:=W) (A:=A) e).
Proof. by intros w. Qed.

Lemma keeps_of_result P {A} (r : result A) : keeps P (of_result (W:=W) r).
Proof. by intros w; destruct r. Qed.

Lemma keeps_get_self P : keeps P (get_self (W:=W)).
Proof. by intros w. Qed.

Lemma keeps_print P line : keeps P (print (W:=W) line).
Proof. by intros w. Qed.

Lemma keeps_call P {A} ev (f : collab (W:=W) A) : keeps P (call ev f).
Proof. intros w. unfold call. by destruct (f (env w)). Qed.

Lemma keeps_bind P {A B} (m : M (W:=W) A) (k : A → M (W:=W) B) :
  keeps P m → (∀ a, keeps P (k a)) → keeps P (bind m k).
Proof.
  intros Hm Hk w HP. unfold bind. specialize (Hm w HP).
  destruct (m w) as [w1 [a|e]]; cbn in *; [by apply Hk|done].
Qed.

Lemma keeps_try_except P {A} (m : M (W:=W) A) handler :
  keeps P m → (∀ e, keeps P (handler e)) → keeps P (try_except m handler).
Proof.
  intros Hm Hh w HP. unfold try_except. specialize (Hm w HP).
  destruct (m w) as [w1 [a|e]]; cbn in *; [done|by apply Hh].
Qed.

Lemma keeps_execute_tool_call P tool_call : keeps P (_execute_tool_call (W:=W) tool_call).
Proof. intros w. by rewrite execute_tool_call_client. Qed.

Lemma keeps_tool_call_loop P calls acc : keeps P (tool_call_loop (W:=W) acc calls).
Proof. intros w. by rewrite tool_call_loop_client. Qed.

Lemma head_system_app h x : head_system h → head_system (h ++ [x]).
Proof. unfold head_system. by destruct h. Qed.

Lemma keeps_history_append x : keeps head_system (history_append (W:=W) x).
Proof. intros w. cbn. apply head_system_app. Qed.

Lemma keeps_assign_history h : head_system h → keeps head_system (assign_history (W:=W) h).
Proof. by intros Hh w _. Qed.

Lemma keeps_try_compress_chat force : keeps head_system (try_compress_chat (W:=W) force).
Proof.
  intros w. unfold try_compress_chat, _format_history_for_summary, head_system.
  unfold_M. intros Hhead. cbn.
  repeat (case_match; cbn in *; simplify_eq); first [done | by f_equal].
Qed.

Lemma keeps_check_and_compress :
  keeps head_system (_check_and_compress_if_needed (W:=W)).
Proof.
  unfold _check_and_compress_if_needed.
  apply keeps_bind; [apply keeps_get_self|]. intros self.
  destruct (length (history self) <? 5)%nat; [apply keeps_ret|].
  apply keeps_bind; [apply keeps_call|]. intros token_count.
  destruct (Qltb _ _); [apply keeps_ret|apply keeps_try_compress_chat].
Qed.

Lemma keeps_send_message message : keeps head_system (send_message (W:=W) json_dumps message).
Proof.
  unfold send_message.
  apply keeps_bind; [apply keeps_history_append|]. intros _.
  apply keeps_bind; [apply keeps_check_and_compress|]. intros _.
  apply keeps_bind; [apply keeps_get_self|]. intros self.
  apply keeps_bind; [apply keeps_call|]. intros response.
  apply keeps_bind.
  - destruct (resp_tool_calls response) as [calls|]; [|apply keeps_ret].
    apply keeps_bind; [apply keeps_tool_call_loop|]. intros tool_results.
    apply keeps_bind; [apply keeps_of_result|]. intros dumped.
    apply keeps_bind; [apply keeps_history_append|]. intros _.
    apply keeps_bind; [apply keeps_get_self|]. intros self'.
    apply keeps_bind; [apply keeps_call|]. intros final_response.
    apply keeps_ret.
  - intros response_text.
    apply keeps_bind; [apply keeps_history_append|]. intros _. apply keeps_ret.
Qed.

Lemma keeps_register_tool P tool : keeps P (register_tool tool).
Proof.
  intros w. unfold register_tool. unfold_M. cbn.
  by destruct (odict_in _ _).
Qed.

Lemma head_system_init cfg (backend : GeminiAPI (W:=W)) :
  head_system (history (init cfg backend)).
Proof. done. Qed.

(** C1, as the code has it: in every world reached from [__init__] by
    [send_message], [try_compress_chat] (forced or not), [reset_chat],
    [get_history], [register_tool], and [set_history] with a list that starts
    with a system turn, the first history entry has the role ['system']; it
    also has it at the point where [send_message] runs the automatic
    compression check, before and after the check. *)
Theorem system_turn_stays_first w :
  reachable json_dumps w →
  head_system (history (client w))
  ∧ ∀ message,
      head_system (history (client (at_compression_check message w)))
      ∧ head_system
          (history (client (_check_and_compress_if_needed
                              (at_compression_check message w)).1)).
Proof.
  intros Hreach.
  assert (head_system (history (client w))) as Hhead.
  { induction Hreach as [cfg backend e|w w' _ IH Hstep]; [apply head_system_init|].
    destruct Hstep as [message w|force w|w|w|h w Hh|tool w].
    - by apply keeps_send_message.
    - by apply keeps_try_compress_chat.
    - done.
    - done.
    - done.
    - by apply keeps_register_tool. }
  split; [done|]. intros message.
  assert (head_system (history (client (at_compression_check message w)))) as Hat.
  { by apply keeps_history_append. }
  split; [done|]. by apply keeps_check_and_compress.
Qed.

(** *** The registry *)

Lemma odict_get_set_eq {V} k (v : V) d : odict_get k (odict_set k v d) = Some v.
Proof.
  induction d as [|[k' v'] d IH]; cbn.
  - by rewrite String.eqb_refl.
  - destruct (String.eqb k k') eqn:E; cbn; rewrite ?E; [|done].
    by rewrite String.eqb_refl.
Qed.

Lemma odict_get_set_ne {V} k k0 (v : V) d :
  k0 ≠ k → odict_get k0 (odict_set k v d) = odict_get k0 d.
Proof.
  intros Hne. induction d as [|[k' v'] d IH]; cbn.
  - by destruct (String.eqb_spec k0 k).
  - destruct (String.eqb_spec k k') as [->|Hk]; cbn.
    + by destruct (String.eqb_spec k0 k').
    + by rewrite IH.
Qed.

Lemma odict_set_fresh {V} k (v : V) d :
  odict_get k d = None → odict_set k v d = d ++ [(k, v)].
Proof.
  induction d as [|[k' v'] d IH]; cbn; [done|].
  destruct (String.eqb k k'); [done|]. intros Hd. by rewrite IH.
Qed.

Lemma odict_get_None_keys {V} k (d : odict V) :
  odict_get k d = None ↔ k ∉ odict_keys d.
Proof.
  unfold odict_keys. induction d as [|[k' v'] d IH]; cbn.
  - split; [|done]. intros _. apply not_elem_of_nil.
  - rewrite not_elem_of_cons.
    destruct (String.eqb_spec k k') as [->|Hk].
    + split; [done|]. by intros [? _].
    + rewrite IH. by split; [|intros [_ ?]].
Qed.

Lemma odict_set_present {V} k (v old : V) d :
  odict_get k d = Some old →
  ∃ i, odict_keys d !! i = Some k
       ∧ odict_set k v d = <[i := (k, v)]> d
       ∧ odict_values (odict_set k v d) = <[i := v]> (odict_values d)
       ∧ odict_keys (odict_set k v d) = odict_keys d.
Proof.
  unfold odict_keys, odict_values.
  induction d as [|[k' v'] d IH]; cbn; [done|].
  destruct (String.eqb_spec k k') as [->|Hk].
  - intros _. by exists 0%nat.
  - intros Hd. destruct (IH Hd) as (i & Hi & Hset & Hvals & Hkeys).
    exists (S i). cbn. split; [done|]. split; [by f_equal|].
    split; by f_equal.
Qed.

Lemma odict_set_keys_NoDup {V} k (v : V) d :
  NoDup (odict_keys d) → NoDup (odict_keys (odict_set k v d)).
Proof.
  intros Hnd. destruct (odict_get k d) as [old|] eqn:Hget.
  - destruct (odict_set_present k v old d Hget) as (i & _ & _ & _ & ->). done.
  - rewrite odict_set_fresh by done. unfold odict_keys in *.
    rewrite fmap_app. cbn. apply NoDup_app. split; [done|]. split.
    + intros x Hx ->%list_elem_of_singleton. by apply odict_get_None_keys in Hget.
    + apply NoDup_singleton.
Qed.

Lemma register_tool_runs tool w :
  register_tool tool w
  = ({| client := with_tools (client w)
                    (odict_set (name tool) tool (tools (tool_registry (client w))));
        env := env w;
        trace := trace w
                 ++ (if odict_in (name tool) (tools (tool_registry (client w)))
                     then [EvPrint ("Warning: Tool with name '" +:+ name tool
                                    +:+ "' is already registered. Overwriting.")]
                     else []) |},
     Return tt).
Proof.
  unfold register_tool. unfold_M. cbn.
  destruct (odict_in _ _); cbn; [done|]. by rewrite app_nil_r.
Qed.

Lemma register_all_distinct ts : ∀ w,
  NoDup (name <$> ts) →
  (∀ t, t ∈ ts → name t ∉ odict_keys (tools (tool_registry (client w)))) →
  tools (tool_registry (client (register_all ts w)))
  = tools (tool_registry (client w)) ++ ((λ t, (name t, t)) <$> ts)
  ∧ trace (register_all ts w) = trace w.
Proof.
  unfold register_all.
  induction ts as [|t ts IH]; intros w Hnd Hfresh; cbn [foldl fmap list_fmap].
  - by rewrite app_nil_r.
  - apply NoDup_cons in Hnd as [Ht Hnd].
    assert (odict_get (name t) (tools (tool_registry (client w))) = None) as Hget.
    { apply odict_get_None_keys, Hfresh. left. }
    rewrite register_tool_runs. unfold odict_in. rewrite Hget, app_nil_r.
    rewrite odict_set_fresh by done. cbn [fst].
    match goal with |- context [foldl _ ?w1 ts] => destruct (IH w1 Hnd) as [IH1 IH2] end.
    { intros t' Ht'. cbn. unfold odict_keys. rewrite fmap_app. cbn.
      rewrite not_elem_of_app. split.
      - apply Hfresh. by right.
      - intros Heq%list_elem_of_singleton. apply Ht. rewrite <- Heq.
        by apply list_elem_of_fmap_2. }
    rewrite IH1, IH2. cbn. by rewrite <- app_assoc.
Qed.

(** C9: [register_tool] always returns; afterwards the lookup by the
    tool's name gives that tool, the lookups of the other names are as
    before, and the schema listing, which has one schema per registered tool,
    holds the tool's schema built from its construction arguments. A new
    name goes to the end of the listing without a warning; a name that is
    present keeps its place, its tool is replaced and a warning is printed.
    Tools registered under distinct names in an empty registry are listed
    in registration order. *)
Theorem registry_round_trip tool w ts :
  let reg := tool_registry (client w) in
  (∃ w', register_tool tool w = (w', Return tt)
     ∧ let reg' := tool_registry (client w') in
       get_tool reg' (name tool) = Some tool
       ∧ (∀ n, n ≠ name tool → get_tool reg' n = get_tool reg n)
       ∧ schema tool ∈ get_function_declarations reg'
       ∧ schema tool = PDict [("name", PStr (name tool));
                              ("description", PStr (description tool));
                              ("parameters", parameter_schema tool)]
       ∧ get_function_declarations reg' = schema <$> get_all_tools reg'
       ∧ length (get_function_declarations reg') = length (odict_keys (tools reg'))
       ∧ (NoDup (odict_keys (tools reg)) → NoDup (odict_keys (tools reg')))
       ∧ match get_tool reg (name tool) with
         | None =>
             get_all_tools reg' = get_all_tools reg ++ [tool]
             ∧ trace w' = trace w
         | Some _ =>
             (∃ i, odict_keys (tools reg) !! i = Some (name tool)
                   ∧ get_all_tools reg' = <[i := tool]> (get_all_tools reg))
             ∧ trace w' = trace w
                          ++ [EvPrint ("Warning: Tool with name '" +:+ name tool
                                       +:+ "' is already registered. Overwriting.")]
         end)
  ∧ (tools reg = [] → NoDup (name <$> ts) →
     get_function_declarations (tool_registry (client (register_all ts w)))
     = schema <$> ts
     ∧ ∀ t, t ∈ ts →
         get_tool (tool_registry (client (register_all ts w))) (name t) = Some t).
Proof.
  cbv zeta. split.
  - eexists. split; [apply register_tool_runs|]. cbn.
    unfold get_tool, get_function_declarations, get_all_tools. cbn.
    split; [apply odict_get_set_eq|].
    split; [intros n Hn; by apply odict_get_set_ne|].
    split.
    { apply list_elem_of_fmap_2. unfold odict_values.
      apply (list_elem_of_fmap_2 snd _ (name tool, tool)).
      assert (∀ d : odict (BaseTool (W:=W)),
                (name tool, tool) ∈ odict_set (name tool) tool d) as Hin.
      { induction d as [|[k' v'] d IH]; cbn; [left|].
        destruct (String.eqb _ _); [left|by right]. }
      apply Hin. }
    split; [done|]. split; [done|].
    split. { unfold odict_keys, odict_values. by rewrite !length_fmap. }
    split; [apply odict_set_keys_NoDup|].
    unfold odict_in.
    destruct (odict_get (name tool) (tools (tool_registry (client w)))) as [old|] eqn:Hget.
    + destruct (odict_set_present (name tool) tool old _ Hget) as (i & Hi & _ & Hv & _).
      split; [|done]. by exists i.
    + split; [|by rewrite app_nil_r].
      rewrite odict_set_fresh by done. unfold odict_values. by rewrite fmap_app.
  - intros Hempty Hnd.
    destruct (register_all_distinct ts w Hnd) as [Htools _].
    { intros t _. rewrite Hempty. apply not_elem_of_nil. }
    unfold get_function_declarations, get_tool. rewrite Htools, Hempty. cbn.
    unfold odict_values. rewrite <- !list_fmap_compose. split.
    { apply list_fmap_ext. by intros. }
    clear Htools. induction ts as [|t' ts IH]; intros t Ht; [by apply elem_of_nil in Ht|].
    apply NoDup_cons in Hnd as [Hnotin Hnd]. cbn.
    destruct (String.eqb_spec (name t) (name t')) as [Heq|Hne].
    + apply elem_of_cons in Ht as [->|Ht]; [done|].
      exfalso. apply Hnotin. rewrite <- Heq. by apply list_elem_of_fmap_2.
    + apply elem_of_cons in Ht as [->|Ht]; [done|]. by apply IH.
Qed.

(** *** The request cycle *)

Lemma bind_Return {A B} (m : M (W:=W) A) (k : A → M (W:=W) B) w w1 a :
  m w = (w1, Return a) → bind m k w = k a w1.
Proof. intros Hm. unfold bind. by rewrite Hm. Qed.

Lemma bind_Raise {A B} (m : M (W:=W) A) (k : A → M (W:=W) B) w w1 e :
  m w = (w1, Raise e) → bind m k w = (w1, Raise e).
Proof. intros Hm. unfold bind. by rewrite Hm. Qed.

Lemma bind_assoc {A B C} (m : M (W:=W) A) (k : A → M (W:=W) B) (k' : B → M (W:=W) C) w :
  bind (bind m k) k' w = bind m (λ a, bind (k a) k') w.
Proof. unfold bind. by destruct (m w) as [w1 [a|e]]. Qed.

Lemma history_append_returns x w :
  history_append x w = ((history_append x w).1, Return tt).
Proof. done. Qed.

Lemma call_runs {A} ev (f : collab (W:=W) A) w e' r :
  f (env w) = (e', r) →
  call ev f w = ({| client := client w; env := e'; trace := trace w ++ [ev] |}, r).
Proof. intros Hf. unfold call. by rewrite Hf. Qed.

(** C6, as the code has it: when the response carries tool calls, each of
    which has a name and a tool whose validator and confirmation gate return
    (and whose description function returns when the gate asks for
    confirmation), [send_message] hands the calls to the
    pipeline one after the other in the listed order and collects one result
    per call, each with its call's name and either a result or an error; a
    call that names no registered tool gets the error result that names the
    missing tool, and a call that fails in this way, by a validation reason
    or by an exception of [execute] keeps none of the others from running.
    When [json.dumps] serialises the collected results, they go into the
    history as one function turn and the follow-up request is issued: the
    cycle returns its text, or raises what the backend raised. When
    [json.dumps] raises, which it does on a result that is not JSON
    serialisable, [send_message] raises that exception after all the calls
    have run, and the history gets no function turn. *)
Theorem tool_failures_do_not_stop_the_cycle message w w1 info e2 response calls :
  _check_and_compress_if_needed (at_compression_check message w) = (w1, Return info) →
  let decls := get_function_declarations (tool_registry (client w1)) in
  let tool_config :=
    match decls with
    | [] => None
    | _ => Some (PList [PDict [("function_declarations", PList decls)]])
    end in
  let system_instruction := get_core_system_prompt (user_memory (config (client w1))) in
  generate_content (api (client w1)) (history (client w1)) tool_config
                   (Some system_instruction) (env w1) = (e2, Return response) →
  resp_tool_calls response = Some calls →
  Forall (pipeline_safe (client w1)) calls →
  let w2 := {| client := client w1; env := e2;
               trace := trace w1 ++ [EvGenerateContent (history (client w1)) tool_config
                                       (Some system_instruction)] |} in
  ∃ w3 rs,
    runs_in_order w2 calls rs w3
    ∧ Forall2 (λ tool_call r,
                 ∃ n, tc_name tool_call = Some n ∧ is_tool_result n r
                      ∧ (get_tool (tool_registry (client w1)) n = None
                         → r = error_result n ("Tool '" +:+ n +:+ "' not found")))
              calls rs
    ∧ match json_dumps (PList (PDict <$> rs)) with
      | Return dumped =>
          let h3 := history (client w1) ++ [from_text "function" dumped] in
          match generate_content (api (client w1)) h3 None None (env w3) with
          | (_, Return final) =>
              let text := default "Tool execution completed." (resp_text final) in
              (send_message json_dumps message w).2 = Return text
              ∧ history (client (send_message json_dumps message w).1)
                = h3 ++ [from_text "model" text]
          | (_, Raise ex) =>
              (send_message json_dumps message w).2 = Raise ex
              ∧ history (client (send_message json_dumps message w).1) = h3
          end
      | Raise ex =>
          send_message json_dumps message w = (w3, Raise ex)
          ∧ history (client w3) = history (client w1)
      end.
Proof.
  intros Hcheck. cbv zeta. intros Hgen Hcalls Hsafe.
  set (w2 := {| client := client w1; env := e2; trace := _ |}).
  destruct (tool_call_loop_runs_all calls [] w2 Hsafe) as (w3 & rs & Hloop & Hord & Hc & Hall).
  exists w3, rs. split; [done|]. split; [done|].
  unfold send_message, at_compression_check in *.
  rewrite (bind_Return _ _ _ _ _ (history_append_returns _ w)).
  rewrite (bind_Return _ _ _ _ _ Hcheck).
  rewrite (bind_Return get_self _ w1 w1 (client w1) eq_refl).
  rewrite (bind_Return _ _ _ _ _ (call_runs _ _ _ _ _ Hgen)).
  fold w2. rewrite Hcalls, !bind_assoc.
  rewrite (bind_Return _ _ _ _ _ Hloop). cbn [app].
  change (client w2) with (client w1) in Hc.
  destruct (json_dumps (PList (PDict <$> rs))) as [dumped|ex]; unfold_M; cbn.
  - rewrite Hc.
    destruct (generate_content (api (client w1)) _ None None (env w3))
      as [e4 [final|ex]]; cbn; by rewrite ?Hc.
  - by rewrite Hc.
Qed.

End Facts.

(** ** Facts about the object store *)

Section AliasingFacts.
Import Aliasing.

Implicit Types (h : heap) (self : client_obj).

(** Reading an object graph only looks at the objects it reaches: a larger
    store reads the same value. *)
Lemma read_dict_weaken h h' l d :
  h ⊆ h' → read_dict h l = Some d → read_dict h' l = Some d.
Proof.
  intros Hsub. unfold read_dict.
  destruct (h !! l) as [o|] eqn:Hl; [|done].
  by rewrite (lookup_weaken _ _ _ _ Hl Hsub).
Qed.

Lemma read_content_weaken h h' l c :
  h ⊆ h' → read_content h l = Some c → read_content h' l = Some c.
Proof.
  intros Hsub. unfold read_content.
  destruct (h !! l) as [[| r p |]|] eqn:Hl; try done.
  rewrite (lookup_weaken _ _ _ _ Hl Hsub).
  destruct (h !! p) as [[ds | |]|] eqn:Hp; try done.
  rewrite (lookup_weaken _ _ _ _ Hp Hsub).
  destruct (mapM (read_dict h) ds) as [ps|] eqn:Hds; [|done].
  intros [= <-].
  assert (mapM (read_dict h') ds = Some ps) as ->; [|done].
  apply mapM_Some. apply mapM_Some in Hds.
  eapply Forall2_impl; [exact Hds|]. intros x y. by apply read_dict_weaken.
Qed.

Lemma read_list_weaken h h' l v :
  h ⊆ h' → read_list h l = Some v → read_list h' l = Some v.
Proof.
  intros Hsub. unfold read_list.
  destruct (h !! l) as [[cs | |]|] eqn:Hl; try done.
  rewrite (lookup_weaken _ _ _ _ Hl Hsub).
  intros Hcs. apply mapM_Some. apply mapM_Some in Hcs.
  eapply Forall2_impl; [exact Hcs|]. intros x y. by apply read_content_weaken.
Qed.

Lemma alloc_fresh h o : h !! (alloc h o).2 = None.
Proof. cbn. apply not_elem_of_dom, is_fresh. Qed.

(** A list-level mutation of a list object only replaces that object. *)
Lemma mutate_list_level h ret items m h2 :
  list_level m = true →
  mutate (<[ret := OList items]> h) ret m = Some h2 →
  ∃ items', h2 = <[ret := OList items']> h.
Proof.
  intros Hm. unfold mutate. rewrite lookup_insert_eq.
  destruct m; try done; cbn; repeat case_decide; intros [= <-];
    eexists; by rewrite insert_insert_eq.
Qed.

Lemma mutate_all_list_level ms : ∀ h ret items h2,
  Forall (λ m, list_level m = true) ms →
  mutate_all (<[ret := OList items]> h) ret ms = Some h2 →
  ∃ items', h2 = <[ret := OList items']> h.
Proof.
  induction ms as [|m ms IH]; intros h ret items h2 Hms; cbn.
  - intros [= <-]. by exists items.
  - apply Forall_cons in Hms as [Hm Hms].
    destruct (mutate _ ret m) as [h1|] eqn:Hmut; [|done].
    destruct (mutate_list_level _ _ _ _ _ Hm Hmut) as (items1 & ->).
    by apply IH.
Qed.

(** C8, as the code has it: [get_history] returns a new list object that
    holds the references the live history holds. Whatever the caller does
    to that list itself (append, item assignment, deletion, clear), in any
    number, the history the client owns reads as before. *)
Theorem get_history_copies_the_list h self v :
  read_history h self = Some v →
  ∃ h1 ret items,
    get_history h self = Some (h1, ret)
    ∧ h !! ret = None
    ∧ h !! history_ref self = Some (OList items)
    ∧ h1 !! ret = Some (OList items)
    ∧ read_list h1 ret = Some v
    ∧ read_history h1 self = Some v
    ∧ ∀ ms h2,
        Forall (λ m, list_level m = true) ms →
        mutate_all h1 ret ms = Some h2 →
        read_history h2 self = Some v.
Proof.
  unfold read_history, get_history, list_copy. intros Hread.
  pose proof Hread as Hread'. unfold read_list in Hread'.
  destruct (h !! history_ref self) as [[items | |]|] eqn:Hl; try done.
  pose proof (alloc_fresh h (OList items)) as Hfresh.
  pose proof (insert_subseteq h _ (OList items) Hfresh) as Hsub.
  eexists _, _, items. split; [done|]. split; [done|]. split; [done|].
  split; [apply lookup_insert_eq|]. split; [|split].
  - unfold read_list. cbn. rewrite lookup_insert_eq.
    apply mapM_Some. apply mapM_Some in Hread'.
    eapply Forall2_impl; [exact Hread'|]. intros x y.
    by apply read_content_weaken.
  - by eapply read_list_weaken.
  - intros ms h2 Hms Hmut. cbn in Hmut.
    destruct (mutate_all_list_level _ _ _ _ _ Hms Hmut) as (items' & ->).
    eapply read_list_weaken; [|exact Hread]. by apply insert_subseteq.
Qed.

End AliasingFacts.

(** ** Concrete sessions *)

(** C1, counterexample: [set_history] installs the caller's list as it
    is; after [set_history] with a list that starts with a user turn the
    first entry is not the system turn, neither before nor after the next
    [send_message]. *)
Lemma set_history_can_remove_system_turn :
  let w := (set_history [from_text "user" "hello"] (start (text_response "hi") [])).1 in
  histories w = ["user"]
  ∧ histories (send_message simple_dumps "again" w).1 = ["user"; "user"; "model"]
  ∧ ¬ head_system (history (client w))
  ∧ ¬ head_system (history (client (send_message simple_dumps "again" w).1)).
Proof. vm_compute. split; [done|]. split; [done|]. by split; intros [=]. Qed.

Lemma system_turn_stays_first_witness :
  reachable simple_dumps four_turns ∧ head_system (history (client four_turns)).
Proof.
  assert (reachable simple_dumps four_turns) as Hreach.
  { unfold four_turns, start. cbn [foldl].
    eapply reach_step; [|apply step_send_message].
    eapply reach_step; [|apply step_register_tool].
    apply reach_init. }
  split; [exact Hreach|].
  exact (proj1 (system_turn_stays_first simple_dumps four_turns Hreach)).
Defined.


Lemma mock_tool_well_behaved n v x params :
  well_behaved (mock_tool n (Return v) x) params.
Proof.
  split; intros e; eexists _, _; [reflexivity|]. split; [reflexivity|]. intros [=].
Qed.


(** C3, counterexample: a history of 4 entries, fewer than 5, is compressed
    by the forced call; the pass returns an info and the history has 5
    entries afterwards. *)
Lemma forced_compression_of_four_entries :
  length (history (client four_turns)) = 4%nat
  ∧ (try_compress_chat true four_turns).2
    = Return (Some (new_ChatCompressionInfo 124 140))
  ∧ histories (try_compress_chat true four_turns).1
    = ["system"; "user"; "model"; "function"; "model"].
Proof. by vm_compute. Qed.

Lemma forced_compression_gate_witness :
  compression_preserve_threshold (client four_turns) = (3 # 10)%Q
  ∧ (try_compress_chat true four_turns).2 ≠ Return None.
Proof.
  split; [reflexivity|].
  apply (forced_compression_gate true four_turns eq_refl).
  vm_compute. lia.
Defined.

(** C4, failing input: the validator answers the empty string, a reason
    that is not [None]; the pipeline takes it for "valid", runs [execute]
    once and returns its result. *)
Theorem empty_reason_runs_execute :
  let r := _execute_tool_call (call_of "picky") tools_world in
  get_tool (tool_registry (client tools_world)) "picky" = Some picky_tool
  ∧ validate_tool_params picky_tool (call_params (call_of "picky")) (env tools_world)
    = (env tools_world, Return (Some ""))
  ∧ r.2 = Return (success_result "picky" (PStr "ran anyway"))
  ∧ executed (trace r.1) = ["picky"]
  ∧ env tools_world = 0%nat ∧ env r.1 = 1%nat.
Proof. by vm_compute. Qed.

Lemma compression_rebuilds_history_witness :
  (compression_preserve_threshold (client four_turns) <= 1)%Q
  ∧ try_compress_chat true four_turns
    = ((try_compress_chat true four_turns).1, Return (Some (new_ChatCompressionInfo 124 140)))
  ∧ Z.of_nat (length (history (client (try_compress_chat true four_turns).1))) = 5.
Proof.
  assert (compression_preserve_threshold (client four_turns) <= 1)%Q as Hq.
  { vm_compute. intros [=]. }
  assert (try_compress_chat true four_turns
          = ((try_compress_chat true four_turns).1,
             Return (Some (new_ChatCompressionInfo 124 140)))) as Hrun.
  { by vm_compute. }
  split; [exact Hq|]. split; [exact Hrun|].
  destruct (compression_rebuilds_history true four_turns _ _ Hq Hrun)
    as (first & lines & original & e1 & e2 & summary_response & _ & _ & _ & _ & _ & _ & Hlen).
  rewrite Hlen. by vm_compute.
Defined.

Lemma compression_ratio_of_pass_witness :
  try_compress_chat true four_turns
  = ((try_compress_chat true four_turns).1, Return (Some (new_ChatCompressionInfo 124 140)))
  ∧ (compression_ratio (new_ChatCompressionInfo 124 140) == 140 # 124)%Q.
Proof.
  assert (try_compress_chat true four_turns
          = ((try_compress_chat true four_turns).1,
             Return (Some (new_ChatCompressionInfo 124 140)))) as Hrun.
  { by vm_compute. }
  split; [exact Hrun|].
  destruct (compression_ratio_of_pass true four_turns _ _ Hrun) as (Hratio & _).
  rewrite Hratio by (cbn; lia). by vm_compute.
Defined.

(** C6, counterexample: the backend asks for two calls; the validator of
    the first tool raises, so the second call is never invoked (no [execute]
    ran), no function turn is recorded and [send_message] raises. *)
Lemma raising_validator_stops_the_cycle :
  let r := send_message simple_dumps "go" fragile_first in
  r.2 = Raise {| exn_class := "ValueError"; exn_str := "bad schema" |}
  ∧ executed (trace r.1) = []
  ∧ env r.1 = 0%nat
  ∧ histories r.1 = ["system"; "user"].
Proof. by vm_compute. Qed.

(** A result that [json.dumps] refuses: the calculator evaluates a
    difference of sets, the pipeline returns the set as the tool's result,
    and [send_message] raises the [TypeError] of [json.dumps] after the call
    has run; the history has no function turn and no model turn. *)
Lemma unserialisable_result_stops_the_cycle :
  let r := send_message simple_dumps "{1} - {2}" example_world in
  r.2 = Raise (TypeError "Object of type set is not JSON serializable")
  ∧ executed (trace r.1) = ["math_calculator"]
  ∧ histories r.1 = ["system"; "user"].
Proof. by vm_compute. Qed.

Lemma tool_failures_do_not_stop_the_cycle_witness :
  let w1 := at_compression_check "go" failing_first in
  let calls := call_of <$> ["failing"; "nope"; "echo_tool"] in
  _check_and_compress_if_needed w1 = (w1, Return None)
  ∧ Forall (pipeline_safe (client w1)) calls
  ∧ ∃ w3 rs, runs_in_order
               (call (EvGenerateContent (history (client w1))
                        (Some (PList [PDict [("function_declarations",
                                              PList (get_function_declarations
                                                       (tool_registry (client w1))))]]))
                        (Some (get_core_system_prompt None)))
                     (λ e, (e, Return (tools_response ["failing"; "nope"; "echo_tool"])))
                     w1).1
               calls rs w3
             ∧ length rs = 3%nat.
Proof.
  cbv zeta.
  set (w1 := at_compression_check "go" failing_first).
  set (calls := call_of <$> ["failing"; "nope"; "echo_tool"]).
  assert (_check_and_compress_if_needed w1 = (w1, Return None)) as Hcheck by done.
  assert (Forall (pipeline_safe (client w1)) calls) as Hsafe.
  { repeat constructor.
    - exists "failing". split; [reflexivity|]. intros tool Hget.
      vm_compute in Hget. injection Hget as <-. apply mock_tool_well_behaved.
    - exists "nope". split; [reflexivity|]. intros tool Hget.
      vm_compute in Hget. discriminate Hget.
    - exists "echo_tool". split; [reflexivity|]. intros tool Hget.
      vm_compute in Hget. injection Hget as <-. apply mock_tool_well_behaved. }
  split; [exact Hcheck|]. split; [exact Hsafe|].
  destruct (tool_failures_do_not_stop_the_cycle simple_dumps "go" failing_first w1 None
              (env w1) (tools_response ["failing"; "nope"; "echo_tool"]) calls
              Hcheck eq_refl eq_refl Hsafe) as (w3 & rs & Hord & Hall & _).
  exists w3, rs. split; [exact Hord|].
  apply Forall2_length in Hall. by rewrite <- Hall.
Defined.

(** C8, counterexample: through the list [get_history] returned, the
    caller assigns the role of its first element and adds a key to that
    element's first part; the history the client owns reads differently
    afterwards. *)
Lemma caller_mutation_reaches_history :
  ∃ h1 ret h2 h3,
    Aliasing.get_history small_heap small_client = Some (h1, ret)
    ∧ Aliasing.read_history h1 small_client
      = Some [{| role := "system"; parts := [[("text", PStr "Be helpful.")]] |}]
    ∧ Aliasing.mutate h1 ret (Aliasing.SetRole 0 "user") = Some h2
    ∧ Aliasing.read_history h2 small_client
      = Some [{| role := "user"; parts := [[("text", PStr "Be helpful.")]] |}]
    ∧ Aliasing.mutate h1 ret (Aliasing.PartSetItem 0 0 "text" (PStr "Be evil.")) = Some h3
    ∧ Aliasing.read_history h3 small_client
      = Some [{| role := "system"; parts := [[("text", PStr "Be evil.")]] |}].
Proof.
  eexists _, _, _, _. split; [by vm_compute|].
  split; [by vm_compute|]. split; [by vm_compute|].
  split; [by vm_compute|]. split; by vm_compute.
Qed.

Lemma get_history_copies_the_list_witness :
  Aliasing.read_history small_heap small_client
  = Some [{| role := "system"; parts := [[("text", PStr "Be helpful.")]] |}]
  ∧ ∃ h1 ret, Aliasing.get_history small_heap small_client = Some (h1, ret)
      ∧ ∀ h2, Aliasing.mutate_all h1 ret [Aliasing.ListClear; Aliasing.ListAppend 4%positive]
              = Some h2 →
              Aliasing.read_history h2 small_client
              = Some [{| role := "system"; parts := [[("text", PStr "Be helpful.")]] |}].
Proof.
  assert (Aliasing.read_history small_heap small_client
          = Some [{| role := "system"; parts := [[("text", PStr "Be helpful.")]] |}])
    as Hread by (by vm_compute).
  split; [exact Hread|].
  destruct (get_history_copies_the_list small_heap small_client _ Hread)
    as (h1 & ret & items & Hget & _ & _ & _ & _ & _ & Hmut).
  exists h1, ret. split; [exact Hget|].
  intros h2. apply Hmut. by repeat constructor.
Defined.

Lemma registry_round_trip_witness :
  ∃ w', register_tool echo_tool tools_world = (w', Return tt)
        ∧ get_tool (tool_registry (client w')) "echo_tool" = Some echo_tool.
Proof.
  destruct (proj1 (registry_round_trip echo_tool tools_world [])) as (w' & Hrun & Hget & _).
  by exists w'.
Defined.

Lemma tool_result_names_tool_and_one_outcome_witness :
  tc_name (call_of "failing") = Some "failing"
  ∧ ∃ w' d, _execute_tool_call (call_of "failing") tools_world = (w', Return d)
            ∧ is_tool_result "failing" d.
Proof.
  split; [reflexivity|].
  destruct (tool_result_names_tool_and_one_outcome (call_of "failing") "failing"
              tools_world eq_refl) as [Hshape Hreturns].
  destruct Hreturns as (w' & d & Hrun).
  { intros tool Hget. vm_compute in Hget. injection Hget as <-.
    apply mock_tool_well_behaved. }
  exists w', d. split; [exact Hrun|]. by eapply Hshape.
Defined.

(** ** Further facts about the session *)

Section SessionFacts.
Context {W : Type} {L : str_methods}.
Variable json_dumps : pyval → result string.

Implicit Types (w : World (W:=W)) (c : GeminiClient (W:=W)).

Lemma history_only_ret {A} (a : A) : history_only (ret (W:=W) a).
Proof. by intros w. Qed.

Lemma history_only_raise {A} e : history_only (raise (W:=W) (A:=A) e).
Proof. by intros w. Qed.

Lemma history_only_of_result {A} (r : result A) : history_only (of_result (W:=W) r).
Proof. by intros w; destruct r. Qed.

Lemma history_only_get_self : history_only (get_self (W:=W)).
Proof. by intros w. Qed.

Lemma history_only_print line : history_only (print (W:=W) line).
Proof. by intros w. Qed.

Lemma history_only_call {A} ev (f : collab (W:=W) A) : history_only (call ev f).
Proof. intros w. unfold call. by destruct (f (env w)). Qed.

Lemma history_only_bind {A B} (m : M (W:=W) A) (k : A → M (W:=W) B) :
  history_only m → (∀ a, history_only (k a)) → history_only (bind m k).
Proof.
  intros Hm Hk w. unfold bind. specialize (Hm w).
  destruct (m w) as [w1 [a|e]]; cbn in *; [|done]. by rewrite Hk.
Qed.

Lemma history_only_assign h : history_only (assign_history (W:=W) h).
Proof. by intros w. Qed.

Lemma history_only_append x : history_only (history_append (W:=W) x).
Proof. by intros w. Qed.

Lemma history_only_tool_call_loop calls acc :
  history_only (tool_call_loop (W:=W) acc calls).
Proof. intros w. by rewrite tool_call_loop_client. Qed.

Lemma history_only_try_compress_chat force :
  history_only (try_compress_chat (W:=W) force).
Proof.
  intros w. unfold try_compress_chat, _format_history_for_summary, settings.
  unfold bind, ret, raise, get_self, put_self, call, assign_history. cbn.
  repeat (case_match; cbn in *; simplify_eq); done.
Qed.

Lemma history_only_check_and_compress :
  history_only (_check_and_compress_if_needed (W:=W)).
Proof.
  unfold _check_and_compress_if_needed.
  apply history_only_bind; [apply history_only_get_self|]. intros self.
  destruct (length (history self) <? 5)%nat; [apply history_only_ret|].
  apply history_only_bind; [apply history_only_call|]. intros token_count.
  destruct (Qltb _ _); [apply history_only_ret|apply history_only_try_compress_chat].
Qed.

Lemma history_only_send_message message :
  history_only (send_message (W:=W) json_dumps message).
Proof.
  unfold send_message.
  apply history_only_bind; [apply history_only_append|]. intros _.
  apply history_only_bind; [apply history_only_check_and_compress|]. intros _.
  apply history_only_bind; [apply history_only_get_self|]. intros self.
  apply history_only_bind; [apply history_only_call|]. intros response.
  apply history_only_bind.
  - destruct (resp_tool_calls response) as [calls|]; [|apply history_only_ret].
    apply history_only_bind; [apply history_only_tool_call_loop|]. intros tool_results.
    apply history_only_bind; [apply history_only_of_result|]. intros dumped.
    apply history_only_bind; [apply history_only_append|]. intros _.
    apply history_only_bind; [apply history_only_get_self|]. intros self'.
    apply history_only_bind; [apply history_only_call|]. intros final_response.
    apply history_only_ret.
  - intros response_text.
    apply history_only_bind; [apply history_only_append|]. intros _.
    apply history_only_ret.
Qed.

(** X1: [send_message], [try_compress_chat], [reset_chat], [set_history]
    and [get_history] change nothing of the client but its history, also
    when they raise: the configuration, the backend, the two thresholds and
    the registered tools are as before. *)
Theorem session_operations_change_history_only w :
  (∀ message, settings (client (send_message json_dumps message w).1) = settings (client w))
  ∧ (∀ force, settings (client (try_compress_chat force w).1) = settings (client w))
  ∧ settings (client (reset_chat w).1) = settings (client w)
  ∧ (∀ h, settings (client (set_history h w).1) = settings (client w))
  ∧ client (get_history w).1 = client w.
Proof.
  split; [intros message; apply history_only_send_message|].
  split; [intros force; apply history_only_try_compress_chat|].
  split; [done|]. split; [done|done].
Qed.

(** X2: the thresholds the client works with are 0.8 and 0.3 in every
    world reached from [__init__], whatever [compression_threshold] and
    [compression_preserve_threshold] the [Config] given to [__init__]
    holds. *)
Theorem thresholds_ignore_config w :
  reachable json_dumps w →
  compression_token_threshold (client w) = (8 # 10)%Q
  ∧ compression_preserve_threshold (client w) = (3 # 10)%Q.
Proof.
  intros Hreach.
  induction Hreach as [cfg backend e|w w' _ IH Hstep]; [done|].
  assert (compression_token_threshold (client w') = compression_token_threshold (client w)
          ∧ compression_preserve_threshold (client w')
            = compression_preserve_threshold (client w)) as [-> ->]; [|done].
  destruct Hstep as [message w|force w|w|w|h w Hh|tool w].
  - pose proof (history_only_send_message message w) as Hs.
    unfold settings in Hs. by simplify_eq.
  - pose proof (history_only_try_compress_chat force w) as Hs.
    unfold settings in Hs. by simplify_eq.
  - done.
  - done.
  - done.
  - rewrite register_tool_runs. done.
Qed.

Lemma Qltb_false x y : Qltb x y = false ↔ (y <= x)%Q.
Proof.
  unfold Qltb. rewrite negb_false_iff. apply Qle_bool_iff.
Qed.

(** X3: the automatic check leaves a history of fewer than 5 entries
    alone, without asking the backend for anything; and whenever it returns
    an info, the history had at least 5 entries, the backend counted at
    least threshold * max_tokens tokens for it, and the info is the one of
    the compression pass that ran after the count. *)
Theorem automatic_compression_gate w :
  ((length (history (client w)) < 5)%nat →
   _check_and_compress_if_needed w = (w, Return None))
  ∧ ∀ w' info,
      _check_and_compress_if_needed w = (w', Return (Some info)) →
      (5 ≤ length (history (client w)))%nat
      ∧ ∃ e1 tokens,
          count_tokens (api (client w)) (history (client w)) (env w) = (e1, Return tokens)
          ∧ (compression_token_threshold (client w)
             * inject_Z (max_tokens (config (client w))) <= inject_Z tokens)%Q
          ∧ try_compress_chat false
              {| client := client w; env := e1;
                 trace := trace w ++ [EvCountTokens (history (client w))] |}
            = (w', Return (Some info)).
Proof.
  unfold _check_and_compress_if_needed. split.
  - intros Hlen. apply Nat.ltb_lt in Hlen.
    unfold bind, get_self, ret. cbn -[Nat.ltb]. by rewrite Hlen.
  - intros w' info. unfold bind, get_self, ret, call. cbn -[Nat.ltb try_compress_chat].
    destruct (length (history (client w)) <? 5)%nat eqn:Hlen; [done|].
    apply Nat.ltb_ge in Hlen.
    destruct (count_tokens (api (client w)) (history (client w)) (env w))
      as [e1 [tokens|ex]] eqn:Hcount; cbn -[try_compress_chat]; [|done].
    destruct (Qltb _ _) eqn:Hlt; [done|]. apply Qltb_false in Hlt.
    intros Hrun. split; [done|]. by exists e1, tokens.
Qed.

(** X4: with the preserve fraction 0.3, a compression pass that returns an
    info ran on a history of n >= 4 entries and leaves
    max(2, floor(3n/10)) + 3 entries: one more than before for n = 4, as many
    for n = 5, and fewer exactly when n >= 6. *)
Theorem compression_shortens_from_six_entries force w w' info :
  compression_preserve_threshold (client w) = (3 # 10)%Q →
  try_compress_chat force w = (w', Return (Some info)) →
  let n := length (history (client w)) in
  let n' := length (history (client w')) in
  (4 ≤ n)%nat
  ∧ Z.of_nat n' = Z.max 2 (Z.of_nat n * 3 / 10) + 3
  ∧ (n = 4%nat → n' = 5%nat)
  ∧ (n = 5%nat → n' = 5%nat)
  ∧ ((n' < n)%nat ↔ (6 ≤ n)%nat).
Proof.
  intros Hq Hrun. cbv zeta.
  destruct (try_compress_chat_fires _ _ _ _ Hrun)
    as (first & rest & summary & e1 & original & e3 & new & Hh & Htarget & Hc & _).
  assert (4 ≤ length (history (client w)))%nat as Hlen.
  { destruct (decide (length (history (client w)) < 4)%nat) as [Hs|Hs]; [|lia].
    apply (short_target_iff _ Hq) in Hs. lia. }
  assert (preserve_count_of (client w)
          = Z.max 2 (Z.of_nat (length (history (client w))) * 3 / 10)) as Hpc.
  { unfold preserve_count_of. rewrite Hq. f_equal.
    unfold py_int. cbn. rewrite Z.quot_div_nonneg by lia. f_equal. }
  pose proof (Z.div_mod (Z.of_nat (length (history (client w))) * 3) 10 ltac:(lia)) as Hdiv.
  pose proof (Z.mod_pos_bound (Z.of_nat (length (history (client w))) * 3) 10 ltac:(lia))
    as Hmod.
  assert (Z.of_nat (length (history (client w')))
          = Z.max 2 (Z.of_nat (length (history (client w))) * 3 / 10) + 3) as Hn'.
  { rewrite Hc, history_with_history.
    rewrite slice_from_nonneg by (unfold split_index_of; lia).
    rewrite length_app, length_drop. cbn. unfold split_index_of. rewrite Hpc. lia. }
  split; [done|]. split; [done|]. lia.
Qed.

(** *** The history after a request *)

Lemma last_drop_lt {A} (l : list A) k :
  (k < length l)%nat → last (drop k l) = last l.
Proof.
  intros Hk. rewrite <- (take_drop k l) at 2. rewrite last_app.
  destruct (last (drop k l)) eqn:Hlast; [done|].
  apply last_None in Hlast. apply (f_equal length) in Hlast.
  rewrite length_drop in Hlast. cbn in Hlast. lia.
Qed.

Lemma last_slice_from_split c :
  (2 ≤ length (history c))%nat →
  last (slice_from (history c) (split_index_of c)) = last (history c).
Proof.
  intros Hlen. unfold slice_from, slice_index. apply last_drop_lt.
  unfold split_index_of, preserve_count_of.
  destruct (Z.ltb_spec (Z.of_nat (length (history c)) - Z.max 2 (py_int (inject_Z (Z.of_nat (length (history c))) * compression_preserve_threshold c))) 0); lia.
Qed.

(** A compression pass either leaves the history as it is or replaces it by
    the first entry, the two summary turns and the suffix from the split
    point on, whether it returns or raises. *)
Lemma try_compress_chat_history force w :
  history (client (try_compress_chat force w).1) = history (client w)
  ∨ (2 ≤ length (history (client w)))%nat
    ∧ ∃ first summary,
        history (client (try_compress_chat force w).1)
        = ([first] ++ summary_turns summary)
          ++ slice_from (history (client w)) (split_index_of (client w)).
Proof.
  destruct (decide (length (history (client w)) < 2)%nat) as [Hshort|Hlong].
  { left. unfold try_compress_chat, bind, get_self, ret. cbn -[Nat.ltb].
    apply Nat.ltb_lt in Hshort. by rewrite Hshort. }
  unfold try_compress_chat, _format_history_for_summary.
  unfold split_index_of, preserve_count_of, summary_turns.
  unfold bind, ret, raise, get_self, put_self, call, assign_history. cbn.
  repeat (case_match; cbn in *; simplify_eq);
    first [by left | right; split; [lia|]; by eexists _, _].
Qed.

Lemma keeps_last_try_compress_chat force x :
  keeps (λ h, last h = Some x) (try_compress_chat (W:=W) force).
Proof.
  intros w Hlast.
  destruct (try_compress_chat_history force w) as [->|(Hlen & first & summary & ->)];
    [done|].
  rewrite last_app, last_slice_from_split by done. by rewrite Hlast.
Qed.

Lemma keeps_last_check_and_compress x :
  keeps (λ h, last h = Some x) (_check_and_compress_if_needed (W:=W)).
Proof.
  unfold _check_and_compress_if_needed.
  apply keeps_bind; [apply keeps_get_self|]. intros self.
  destruct (length (history self) <? 5)%nat; [apply keeps_ret|].
  apply keeps_bind; [apply keeps_call|]. intros token_count.
  destruct (Qltb _ _); [apply keeps_ret|apply keeps_last_try_compress_chat].
Qed.

Lemma send_message_history message w :
  let w1 := (_check_and_compress_if_needed (at_compression_check message w)).1 in
  let r := send_message json_dumps message w in
  ∃ mid,
    (mid = [] ∨ ∃ s, mid = [from_text "function" s])
    ∧ match r.2 with
      | Return t =>
          history (client r.1) = history (client w1) ++ mid ++ [from_text "model" t]
      | Raise _ => history (client r.1) = history (client w1) ++ mid
      end.
Proof.
  cbv zeta. unfold send_message, at_compression_check.
  rewrite (bind_Return _ _ _ _ _ (history_append_returns _ w)).
  destruct (_check_and_compress_if_needed (history_append (from_text "user" message) w).1)
    as [w1 [i|ex]] eqn:Hcheck.
  2: { rewrite (bind_Raise _ _ _ _ _ Hcheck). exists []. split; [by left|].
       cbn. by rewrite app_nil_r. }
  rewrite (bind_Return _ _ _ _ _ Hcheck).
  rewrite (bind_Return get_self _ w1 w1 (client w1) eq_refl).
  cbn [fst].
  match goal with |- context [call _ ?f] =>
    destruct (f (env w1)) as [e2 [response|ex]] eqn:Hgen end.
  2: { rewrite (bind_Raise _ _ _ _ _ (call_runs _ _ _ _ _ Hgen)). exists [].
       split; [by left|]. cbn. by rewrite app_nil_r. }
  rewrite (bind_Return _ _ _ _ _ (call_runs _ _ _ _ _ Hgen)).
  destruct (resp_tool_calls response) as [calls|].
  - rewrite !bind_assoc.
    match goal with |- context [bind (tool_call_loop [] calls) _ ?w2] =>
      pose proof (tool_call_loop_client calls [] w2) as Hc;
      destruct (tool_call_loop [] calls w2) as [w3 [rs|ex]] eqn:Hloop end.
    + rewrite (bind_Return _ _ _ _ _ Hloop). cbn in Hc.
      destruct (json_dumps (PList (PDict <$> rs))) as [dumped|ex].
      * exists [from_text "function" dumped].
        split; [right; by eexists|].
        unfold bind, ret, get_self, put_self, call, history_append. cbn. rewrite Hc.
        destruct (generate_content (api (client w1)) _ None None (env w3))
          as [e4 [final|ex]]; cbn; rewrite ?Hc; [|done].
        by rewrite <- app_assoc.
      * exists []. split; [by left|]. cbn. by rewrite Hc, app_nil_r.
    + rewrite (bind_Raise _ _ _ _ _ Hloop). cbn in Hc. exists [].
      split; [by left|]. cbn. by rewrite Hc, app_nil_r.
  - exists []. split; [by left|]. done.
Qed.

(** X5: after [send_message], whether it returned or raised, the history
    holds the user turn of the request, after it at most one function turn,
    and then, exactly when a text was returned, the model turn with that
    text: the turn just sent is never summarised away, and a request that
    fails leaves its user turn (and function turn) without a model turn. *)
Theorem send_message_history_shape message w :
  let r := send_message json_dumps message w in
  ∃ pre mid,
    (mid = [] ∨ ∃ s, mid = [from_text "function" s])
    ∧ match r.2 with
      | Return t =>
          history (client r.1)
          = pre ++ [from_text "user" message] ++ mid ++ [from_text "model" t]
      | Raise _ =>
          history (client r.1) = pre ++ [from_text "user" message] ++ mid
      end.
Proof.
  cbv zeta.
  destruct (send_message_history message w) as (mid & Hmid & Hshape).
  assert (last (history (client (_check_and_compress_if_needed
                                   (at_compression_check message w)).1))
          = Some (from_text "user" message)) as Hlast.
  { apply keeps_last_check_and_compress. cbn. apply last_snoc. }
  apply last_Some in Hlast as (pre & Hpre). rewrite Hpre in Hshape.
  exists pre, mid. split; [done|].
  destruct (send_message json_dumps message w).2; by rewrite Hshape, <- app_assoc.
Qed.

(** *** The transcript *)

Lemma format_lines_app h1 h2 :
  format_lines (h1 ++ h2)
  = match format_lines h1, format_lines h2 with
    | Return l1, Return l2 => Return (l1 ++ l2)
    | Raise e, _ => Raise e
    | Return _, Raise e => Raise e
    end.
Proof.
  induction h1 as [|c h1 IH]; cbn [app format_lines].
  - by destruct (format_lines h2).
  - rewrite IH. destruct (text_parts (parts c)) as [|t ts]; [done|].
    destruct (join_texts (t :: ts)) as [ss|e]; [|done].
    destruct (format_lines h1) as [l1|e]; [|done].
    by destruct (format_lines h2).
Qed.

Lemma text_parts_strings ps :
  Forall (λ part : odict pyval, ∀ t, odict_get "text" part = Some t → ∃ s, t = PStr s) ps →
  ∃ ss, join_texts (text_parts ps) = Return ss.
Proof.
  induction 1 as [|part ps Hpart _ (ss & IH)]; cbn [text_parts]; [by exists []|].
  destruct (odict_get "text" part) as [t|] eqn:Ht; [|by exists ss].
  destruct (Hpart t eq_refl) as (s & ->). cbn [join_texts]. rewrite IH. by eexists.
Qed.

(** X6: the transcript of text turns, as the client records them, has one
    line [ROLE: text] per turn, in order; contents without a text part add
    no line; and the formatting returns whenever every text part is a
    string. *)
Theorem transcript_of_history (turns : list (string * string))
    (h1 h2 : list Content) (content : Content) w :
  _format_history_for_summary (turn <$> turns) w
  = (w, Return (str_join nl ((λ rt, str_upper rt.1 +:+ ": " +:+ rt.2) <$> turns)))
  ∧ (text_parts (parts content) = [] →
     format_lines (h1 ++ content :: h2) = format_lines (h1 ++ h2))
  ∧ (texts_are_strings h1 →
     ∃ ls, _format_history_for_summary h1 w = (w, Return (str_join nl ls))
           ∧ (length ls ≤ length h1)%nat).
Proof.
  split; [|split].
  - unfold _format_history_for_summary.
    assert (format_lines (turn <$> turns)
            = Return ((λ rt, str_upper rt.1 +:+ ": " +:+ rt.2) <$> turns)) as ->; [|done].
    induction turns as [|[r t] turns IH]; [done|].
    cbn [fmap list_fmap format_lines]. rewrite IH. done.
  - intros Hc. rewrite !format_lines_app. cbn [format_lines]. by rewrite Hc.
  - intros Hh. unfold _format_history_for_summary.
    assert (∃ ls, format_lines h1 = Return ls ∧ (length ls ≤ length h1)%nat)
      as (ls & -> & Hlen); [|by exists ls].
    induction Hh as [|c' h Hc' _ (ls & IH & Hlen)]; [by exists []|].
    cbn [format_lines length].
    destruct (text_parts_strings _ Hc') as (ss & Hss).
    destruct (text_parts (parts c')) as [|t ts]; [exists ls; split; [done|lia]|].
    rewrite Hss, IH. eexists. split; [done|]. cbn [length]. lia.
Qed.

End SessionFacts.

(** ** Further facts about the object store *)

Section SetHistoryFacts.
Import Aliasing.

Implicit Types (h : heap) (self : client_obj).

Lemma read_dict_insert_list h a items items' l d :
  h !! a = Some (OList items) →
  read_dict h l = Some d → read_dict (<[a := OList items']> h) l = Some d.
Proof.
  intros Ha. unfold read_dict. destruct (h !! l) as [[| |d']|] eqn:Hl; try done.
  assert (a ≠ l) as Hne by (intros ->; congruence).
  by rewrite lookup_insert_ne, Hl.
Qed.

(** A list object that is a copy of the list [a] reads the same contents
    after [a] itself has been given other items. *)
Lemma read_copy_insensitive h l a cs items' v :
  l ≠ a →
  h !! l = Some (OList cs) →
  h !! a = Some (OList cs) →
  mapM (read_content h) cs = Some v →
  read_list (<[a := OList items']> h) l = Some v.
Proof.
  intros Hne Hl Ha Hread. unfold read_list.
  rewrite lookup_insert_ne, Hl by done.
  apply mapM_Some. apply mapM_Some in Hread.
  apply Forall2_same_length_lookup. apply Forall2_same_length_lookup in Hread as [Hlen Hread].
  split; [done|]. intros i c cv Hi Hv. specialize (Hread i c cv Hi Hv).
  unfold read_content in *.
  destruct (h !! c) as [[| r p |]|] eqn:Hc; try done.
  assert (c ≠ a) as Hca by (intros ->; congruence).
  rewrite lookup_insert_ne, Hc by done.
  destruct (h !! p) as [[ds | |]|] eqn:Hp; try done.
  destruct (mapM (read_dict h) ds) as [ps|] eqn:Hds; [|done].
  assert (p ≠ a) as Hpa.
  { intros ->. rewrite Ha in Hp. injection Hp as <-.
    apply mapM_Some in Hds.
    destruct (Forall2_lookup_l _ _ _ _ _ Hds Hi) as (d & _ & Hd).
    unfold read_dict in Hd. by rewrite Hc in Hd. }
  rewrite lookup_insert_ne, Hp by done.
  assert (mapM (read_dict (<[a := OList items']> h)) ds = Some ps) as ->; [|done].
  apply mapM_Some. apply mapM_Some in Hds.
  eapply Forall2_impl; [exact Hds|]. intros x y. by eapply read_dict_insert_list.
Qed.

(** X7: [set_history] stores a new list object that holds the references
    of the list it was given, so the history reads as that list did;
    whatever the caller does afterwards to its own list (append, item
    assignment, deletion, clear), in any number, the history the client
    owns reads the same. *)
Theorem set_history_copies_the_list h self arg v :
  read_list h arg = Some v →
  ∃ h1 self' items,
    set_history h self arg = Some (h1, self')
    ∧ h !! history_ref self' = None
    ∧ h !! arg = Some (OList items)
    ∧ h1 !! history_ref self' = Some (OList items)
    ∧ read_history h1 self' = Some v
    ∧ ∀ ms h2,
        Forall (λ m, list_level m = true) ms →
        mutate_all h1 arg ms = Some h2 →
        read_history h2 self' = Some v.
Proof.
  unfold set_history, list_copy, read_history. intros Hread.
  pose proof Hread as Hread'. unfold read_list in Hread'.
  destruct (h !! arg) as [[items | |]|] eqn:Harg; try done.
  pose proof (alloc_fresh h (OList items)) as Hfresh.
  pose proof (insert_subseteq h _ (OList items) Hfresh) as Hsub.
  set (l := (alloc h (OList items)).2) in *.
  assert (l ≠ arg) as Hne by (intros ->; congruence).
  set (h1 := <[l := OList items]> h) in *.
  assert (h1 !! arg = Some (OList items)) as Harg1.
  { unfold h1. by rewrite lookup_insert_ne. }
  assert (h1 !! l = Some (OList items)) as Hl1 by apply lookup_insert_eq.
  assert (mapM (read_content h1) items = Some v) as Hread1.
  { apply mapM_Some. apply mapM_Some in Hread'.
    eapply Forall2_impl; [exact Hread'|]. intros x y. by apply read_content_weaken. }
  exists h1, {| history_ref := l |}, items. cbn.
  split; [done|]. split; [done|]. split; [done|]. split; [done|]. split.
  - change (read_list h1 l = Some v). unfold read_list. by rewrite Hl1.
  - intros ms h2 Hms Hmut. change (read_list h2 l = Some v).
    change (mutate_all h1 arg ms = Some h2) in Hmut.
    rewrite <- (insert_id h1 arg (OList items) Harg1) in Hmut.
    destruct (mutate_all_list_level _ _ _ _ _ Hms Hmut) as (items' & ->).
    by eapply read_copy_insensitive.
Qed.

End SetHistoryFacts.

(** ** Facts about the mock backend *)

Section MockFacts.
Context {W : Type} {L : str_methods}.
Variable json_dumps : pyval → result string.

(** *** count_tokens *)

Lemma total_chars_parts_ge ps : ∀ acc total,
  total_chars_parts acc ps = Return total → acc ≤ total.
Proof.
  induction ps as [|part ps IH]; intros acc total; cbn [total_chars_parts].
  - intros [= ->]. lia.
  - destruct (odict_get "text" part) as [t|]; [|apply IH].
    destruct (py_len t) as [k|ex] eqn:Hlen; [|done].
    intros Htotal%IH. destruct t; cbn in Hlen; simplify_eq; lia.
Qed.

Lemma total_chars_ge contents : ∀ acc total,
  total_chars acc contents = Return total → acc ≤ total.
Proof.
  induction contents as [|c contents IH]; intros acc total; cbn [total_chars].
  - intros [= ->]. lia.
  - destruct (total_chars_parts acc (parts c)) as [acc'|ex] eqn:Hparts; [|done].
    intros Htotal%IH. apply total_chars_parts_ge in Hparts. lia.
Qed.

Lemma total_chars_app h h' : ∀ acc,
  total_chars acc (h ++ h')
  = match total_chars acc h with
    | Return total => total_chars total h'
    | Raise ex => Raise ex
    end.
Proof.
  induction h as [|c h IH]; intros acc; cbn [app total_chars]; [done|].
  destruct (total_chars_parts acc (parts c)); [apply IH|done].
Qed.

Lemma total_chars_turns turns : ∀ acc,
  total_chars acc (turn <$> turns)
  = Return (acc + Z.of_nat (sum_list ((λ rt, str_len rt.2) <$> turns))).
Proof.
  induction turns as [|[r t] turns IH]; intros acc.
  - cbn. f_equal. lia.
  - cbn [fmap list_fmap total_chars sum_list sum_list_with].
    unfold turn at 1, from_text. cbn. fold (turn <$> turns). rewrite IH.
    f_equal. cbn. lia.
Qed.

(** X8: the mock's token count of text turns is a quarter, rounded down, of
    the number of characters (code points) of their texts, whatever the roles
    are; the backend state is untouched. *)
Theorem count_tokens_of_text_turns (turns : list (string * string)) (e : W) :
  MockGeminiAPI_count_tokens (turn <$> turns) e
  = (e, Return (Z.of_nat (sum_list ((λ rt, str_len rt.2) <$> turns)) / 4)).
Proof.
  unfold MockGeminiAPI_count_tokens. rewrite total_chars_turns. done.
Qed.

(** X9: when the mock counts the tokens of a history, it also counts those
    of every prefix of it, and the count of the prefix is non-negative and
    at most the count of the whole: appending turns never lowers the token
    count. *)
Theorem count_tokens_monotone (h h' : list Content) (e e1 : W) tokens' :
  MockGeminiAPI_count_tokens (h ++ h') e = (e1, Return tokens') →
  ∃ tokens,
    MockGeminiAPI_count_tokens h e = (e, Return tokens)
    ∧ 0 ≤ tokens ≤ tokens'
    ∧ e1 = e.
Proof.
  unfold MockGeminiAPI_count_tokens. rewrite total_chars_app.
  destruct (total_chars 0 h) as [total|ex] eqn:Hh; [|done].
  destruct (total_chars total h') as [total'|ex] eqn:Hh'; [|done].
  intros [= <- <-]. exists (total / 4). split; [done|].
  apply total_chars_ge in Hh, Hh'. split; [|done]. split.
  - apply Z.div_pos; lia.
  - apply Z.div_le_mono; lia.
Qed.

(** *** generate_content *)

Lemma filter_no_user others :
  Forall (λ c, role c ≠ "user") others →
  List.filter (λ c, String.eqb (role c) "user") others = [].
Proof.
  induction 1 as [|c others Hc _ IH]; [done|]. cbn.
  destruct (String.eqb_spec (role c) "user"); [done|]. exact IH.
Qed.

Lemma last_user_message pre (c : Content) others :
  role c = "user" →
  Forall (λ c, role c ≠ "user") others →
  last (List.filter (λ c, String.eqb (role c) "user") (pre ++ [c] ++ others)) = Some c.
Proof.
  intros Hc Hothers. rewrite !List.filter_app, (filter_no_user _ Hothers), app_nil_r.
  cbn. rewrite Hc. cbn. apply last_snoc.
Qed.

(** The answer of the mock for a text. *)
Lemma mock_answer_cases text :
  let answer :=
    if existsb (λ word, str_contains word (str_lower text)) math_words
    then math_call text
    else if str_contains "echo" (str_lower text) then echo_call text
         else default_reply text in
  (∃ t, resp_text answer = Some t ∧ resp_tool_calls answer = None)
  ∨ (resp_text answer = None
     ∧ ∃ n p, resp_tool_calls answer
              = Some [{| tc_name := Some n; tc_parameters := Some (PDict p) |}]
              ∧ (n = "math_calculator" ∨ n = "echo_tool")).
Proof.
  cbv zeta. destruct (existsb _ math_words).
  - right. split; [done|]. eexists _, _. split; [done|]. by left.
  - destruct (str_contains "echo" _).
    + right. split; [done|]. eexists _, _. split; [done|]. by right.
    + left. by eexists.
Qed.

Lemma mock_generate_state contents tc si tc' si' (e e0 : W) :
  MockGeminiAPI_generate_content contents tc si e
  = (e, (MockGeminiAPI_generate_content contents tc' si' e0).2).
Proof.
  unfold MockGeminiAPI_generate_content.
  destruct (last _) as [last_message|]; [|done].
  destruct (concat_texts "" (parts last_message)) as [text|ex]; [|done].
  destruct (existsb _ math_words); [done|]. by destruct (str_contains "echo" _).
Qed.

Lemma mock_response_shape_aux contents tool_config system_instruction (e e' : W) response :
  MockGeminiAPI_generate_content contents tool_config system_instruction e
  = (e', Return response) →
  (∃ t, resp_text response = Some t ∧ resp_tool_calls response = None)
  ∨ (resp_text response = None
     ∧ ∃ n p, resp_tool_calls response
              = Some [{| tc_name := Some n; tc_parameters := Some (PDict p) |}]
              ∧ (n = "math_calculator" ∨ n = "echo_tool")).
Proof.
  unfold MockGeminiAPI_generate_content.
  destruct (last _) as [last_message|].
  - destruct (concat_texts "" (parts last_message)) as [text|ex]; [|done].
    pose proof (mock_answer_cases text) as Hcases. cbv zeta in Hcases.
    destruct (existsb _ math_words); [|destruct (str_contains "echo" _)];
      intros [= <- <-]; done.
  - intros [= <- <-]. left. by eexists.
Qed.

(** X10: an answer of the mock carries either a text and no tool calls, or
    no text and exactly one tool call, which has a name, one of
    [math_calculator] and [echo_tool], and a parameter dict; the backend
    state is untouched and the advertised tools and the system instruction
    play no part. *)
Theorem mock_response_shape contents tool_config system_instruction (e e' : W) response :
  MockGeminiAPI_generate_content contents tool_config system_instruction e
  = (e', Return response) →
  e' = e
  ∧ MockGeminiAPI_generate_content contents None None e = (e, Return response)
  ∧ ((∃ t, resp_text response = Some t ∧ resp_tool_calls response = None)
     ∨ (resp_text response = None
        ∧ ∃ n p, resp_tool_calls response
                 = Some [{| tc_name := Some n; tc_parameters := Some (PDict p) |}]
                 ∧ (n = "math_calculator" ∨ n = "echo_tool"))).
Proof.
  intros Hgen. pose proof (mock_response_shape_aux _ _ _ _ _ _ Hgen) as Hshape.
  rewrite (mock_generate_state _ _ _ None None e e) in Hgen.
  injection Hgen as <- Hgen. split; [done|]. split; [|done].
  rewrite (mock_generate_state _ None None None None e e). by rewrite Hgen.
Qed.

Lemma mock_answers_last_user_turn_aux pre (c : Content) others tc si tc' si' (e : W) :
  Forall (λ c, role c ≠ "user") others →
  (role c = "user" →
   MockGeminiAPI_generate_content (pre ++ [c] ++ others) tc si e
   = MockGeminiAPI_generate_content [c] tc' si' e)
  ∧ MockGeminiAPI_generate_content others tc si e
    = (e, Return {| resp_text := Some ready_text; resp_tool_calls := None |}).
Proof.
  intros Hothers. split.
  - intros Hc. unfold MockGeminiAPI_generate_content.
    rewrite (last_user_message pre c others Hc Hothers).
    pose proof (last_user_message [] c [] Hc (Forall_nil_2 _)) as Hlast.
    cbn [app] in Hlast. by rewrite Hlast.
  - unfold MockGeminiAPI_generate_content. by rewrite (filter_no_user _ Hothers).
Qed.

(** X11: the mock answers the last user turn only: the turns before it,
    the turns of other roles after it, the advertised tools and the system
    instruction do not change the answer; without any user turn the answer
    is the fixed greeting. *)
Theorem mock_answers_last_user_turn pre (c : Content) others tc si tc' si' (e : W) :
  Forall (λ c, role c ≠ "user") others →
  (role c = "user" →
   MockGeminiAPI_generate_content (pre ++ [c] ++ others) tc si e
   = MockGeminiAPI_generate_content [c] tc' si' e)
  ∧ MockGeminiAPI_generate_content others tc si e
    = (e, Return {| resp_text := Some ready_text; resp_tool_calls := None |}).
Proof. apply mock_answers_last_user_turn_aux. Qed.

(** X12: with the mock backend, a request that went through a tool cycle
    is always answered 'Tool execution completed.': the follow-up request
    is answered from the same user turn as the first one, so it asks for the
    tool again and carries no text; the results of the tools appear in the
    function turn of the history only. *)
Theorem mock_tool_cycle_reply message (w w' : World (W:=W)) pre s t :
  api (client w) = MockGeminiAPI →
  send_message json_dumps message w = (w', Return t) →
  history (client w')
  = pre ++ [from_text "user" message; from_text "function" s; from_text "model" t] →
  t = "Tool execution completed.".
Proof.
  intros Hapi. unfold send_message.
  rewrite (bind_Return _ _ _ _ _ (history_append_returns _ w)).
  pose proof (history_only_check_and_compress
                (history_append (from_text "user" message) w).1) as Hset.
  pose proof (keeps_last_check_and_compress (from_text "user" message)
                (history_append (from_text "user" message) w).1 (last_snoc _ _)) as Hlast.
  destruct (_check_and_compress_if_needed (history_append (from_text "user" message) w).1)
    as [w1 [i|ex]] eqn:Hcheck; [|by rewrite (bind_Raise _ _ _ _ _ Hcheck)].
  cbn [fst] in Hset, Hlast.
  assert (api (client w1) = MockGeminiAPI) as Hapi1.
  { apply (f_equal (λ x, x.1.1.1.2)) in Hset. cbn in Hset. congruence. }
  apply last_Some in Hlast as (pre1 & Hpre1).
  rewrite (bind_Return _ _ _ _ _ Hcheck).
  rewrite (bind_Return get_self _ w1 w1 (client w1) eq_refl).
  match goal with |- context [call _ ?f] =>
    destruct (f (env w1)) as [e2 [response|ex]] eqn:Hgen end.
  2: { by rewrite (bind_Raise _ _ _ _ _ (call_runs _ _ _ _ _ Hgen)). }
  rewrite (bind_Return _ _ _ _ _ (call_runs _ _ _ _ _ Hgen)).
  rewrite Hapi1, Hpre1 in Hgen. cbn [generate_content MockGeminiAPI] in Hgen.
  destruct (resp_tool_calls response) as [calls|] eqn:Hcalls.
  - rewrite !bind_assoc.
    match goal with |- context [bind (tool_call_loop [] calls) _ ?w2] =>
      pose proof (tool_call_loop_client calls [] w2) as Hc;
      destruct (tool_call_loop [] calls w2) as [w3 [rs|ex]] eqn:Hloop end.
    2: { by rewrite (bind_Raise _ _ _ _ _ Hloop). }
    rewrite (bind_Return _ _ _ _ _ Hloop). cbn in Hc.
    destruct (json_dumps (PList (PDict <$> rs))) as [dumped|ex];
      [|by unfold bind, of_result, raise].
    unfold bind, of_result, ret, get_self, put_self, call, history_append. cbn.
    rewrite Hc, Hapi1.
    cbn [generate_content MockGeminiAPI]. rewrite Hpre1.
    match goal with |- context [MockGeminiAPI_generate_content ?h None None (env w3)] =>
      assert (MockGeminiAPI_generate_content h None None (env w3)
              = (env w3, Return response)) as -> end.
    { rewrite <- app_assoc.
      assert (Forall (λ c : Content, role c ≠ "user")
                [from_text "function" dumped]) as Hfun.
      { repeat constructor. unfold from_text. done. }
      destruct (mock_answers_last_user_turn_aux pre1 (from_text "user" message) _
                  None None None None (env w3) Hfun) as [Hx _].
      rewrite Hx by done.
      rewrite (mock_generate_state _ None None None None (env w3) (env w1)).
      match type of Hgen with MockGeminiAPI_generate_content _ ?tc ?si _ = _ =>
        destruct (mock_answers_last_user_turn_aux pre1 (from_text "user" message) []
                    tc si None None (env w1) (Forall_nil_2 _)) as [Hy _] end.
      cbn [app] in Hy. rewrite <- Hy by done. by rewrite Hgen. }
    cbn. intros [= <- <-] _.
    destruct (mock_response_shape_aux _ _ _ _ _ _ Hgen) as [(t' & _ & Hnone)|(Htext & _)];
      [congruence|]. by rewrite Htext.
  - cbn. unfold bind, ret, get_self, put_self, history_append. cbn.
    intros [= <- <-]. cbn. rewrite Hpre1, <- app_assoc. cbn.
    intros Heq.
    change (pre ++ [from_text "user" message; from_text "function" s;
                    from_text "model" (default "No response generated." (resp_text response))])
      with (pre ++ [from_text "user" message; from_text "function" s]
                ++ [from_text "model" (default "No response generated." (resp_text response))])
      in Heq.
    change (pre1 ++ [from_text "user" message;
                     from_text "model" (default "No response generated." (resp_text response))])
      with (pre1 ++ [from_text "user" message]
                 ++ [from_text "model" (default "No response generated." (resp_text response))])
      in Heq.
    rewrite !app_assoc in Heq. apply app_inj_tail in Heq as [Heq _].
    change (pre ++ [from_text "user" message; from_text "function" s])
      with (pre ++ [from_text "user" message] ++ [from_text "function" s]) in Heq.
    rewrite app_assoc in Heq. apply app_inj_tail in Heq as [_ Heq].
    unfold from_text in Heq. done.
Qed.

End MockFacts.

(** ** The example tools *)

Section ExampleFacts.
Context {W : Type} {L : str_methods}.
Variable repr_str : string → string.
Variable re_search : string → string → bool.
Variable py_eval : string → result pyval.

Lemma join_texts_strings l : join_texts (PStr <$> l) = Return l.
Proof. induction l as [|s l IH]; cbn; [done|]. by rewrite IH. Qed.

Lemma validate_with_runs {V} checks params (e : V) :
  validate_with checks params e
  = (e, Return match params with
               | PDict d => checks d
               | _ => Some "Parameters must be a dictionary"
               end).
Proof. by destruct params. Qed.

Lemma validate_with_accepts {V} checks params (e e' : V) :
  validate_with checks params e = (e', Return None) →
  ∃ d, params = PDict d ∧ checks d = None.
Proof.
  rewrite validate_with_runs. intros [= _ Hv]. destruct params; try done. by eexists.
Qed.

Lemma repeated_messages_strings n message :
  repeated_messages repr_str n (PStr message)
  = PStr <$> ((λ i : nat, if 1 <? n then pretty (S i) +:+ ". " +:+ message else message)
                <$> seq 0 (Z.to_nat n)).
Proof.
  unfold repeated_messages. rewrite <- list_fmap_compose. apply list_fmap_ext.
  intros i x _. cbn. by destruct (1 <? n).
Qed.

(** X13: parameters the echo tool's validator accepts are a dict with a
    string message and a repeat count between 1 and 5 (1 when absent;
    [True] counts as 1); on them [execute] returns, leaves the state alone
    and echoes the message itself for the count 1 and the numbered lines
    [1. message] to [n. message], joined by newlines, for a count n > 1. *)
Theorem echo_execute_after_validation params (e0 e0' e : W) :
  validate_tool_params (EchoTool repr_str) params e0 = (e0', Return None) →
  ∃ d message n lines payload,
    params = PDict d
    ∧ odict_get "message" d = Some (PStr message)
    ∧ as_int (default (PInt 1) (odict_get "repeat_count" d)) = Some n
    ∧ 1 ≤ n ≤ 5
    ∧ execute (EchoTool repr_str) params e = (e, Return (PDict payload))
    ∧ odict_get "original_message" payload = Some (PStr message)
    ∧ odict_get "echoed_content" payload = Some (PStr (str_join nl lines))
    ∧ odict_get "llmContent" payload = Some (PStr ("Echoed: " +:+ str_join nl lines))
    ∧ length lines = Z.to_nat n
    ∧ (n = 1 → lines = [message])
    ∧ (1 < n → ∀ i, (i < Z.to_nat n)%nat →
               lines !! i = Some (pretty (S i) +:+ ". " +:+ message)).
Proof.
  intros Hv. apply validate_with_accepts in Hv as (d & -> & Hchecks).
  unfold EchoTool_checks in Hchecks.
  destruct (odict_get "message" d) as [[| | |message| | |]|] eqn:Hmessage; try done.
  destruct (as_int (default (PInt 1) (odict_get "repeat_count" d))) as [n|] eqn:Hn;
    [|done].
  destruct (n <? 1) eqn:Hlo; [done|]. destruct (5 <? n) eqn:Hhi; [done|].
  apply Z.ltb_ge in Hlo, Hhi.
  exists d, message, n,
    ((λ i : nat, if 1 <? n then pretty (S i) +:+ ". " +:+ message else message)
       <$> seq 0 (Z.to_nat n)).
  eexists. split; [done|]. split; [done|]. split; [done|]. split; [lia|].
  split.
  { cbn [execute EchoTool]. unfold EchoTool_execute, py_getitem, py_get.
    rewrite Hmessage, Hn, repeated_messages_strings, join_texts_strings. done. }
  split; [done|]. split; [done|]. split; [done|].
  split; [by rewrite length_fmap, length_seq|]. split.
  - intros ->. done.
  - intros Hgt i Hi. rewrite list_lookup_fmap, lookup_seq_lt by done. cbn.
    by rewrite (proj2 (Z.ltb_lt 1 n) Hgt).
Qed.















(** X19: a call that carries no parameters reaches each example tool as
    the empty dict and is answered, without the tool being executed, by a
    validation error that names the tool's required parameter; parameters
    that are not a dict are refused by the base validation in the same
    way. *)
Theorem example_tools_refuse_missing_parameters tool n (w : World (W:=pdict)) :
  tool ∈ example_tools repr_str re_search py_eval →
  get_tool (tool_registry (client w)) n = Some tool →
  ∃ required,
    (name tool = "math_calculator" ∧ required = "expression"
     ∨ name tool = "echo_tool" ∧ required = "message"
     ∨ name tool = "memory_tool" ∧ required = "action")
    ∧ _execute_tool_call {| tc_name := Some n; tc_parameters := None |} w
      = ({| client := client w; env := env w;
            trace := trace w ++ [EvValidate n (PDict [])] |},
         Return (error_result n
                   ("Parameter validation failed: Missing required parameter: "
                    +:+ required)))
    ∧ ∀ p, (∀ d, p ≠ PDict d) →
           _execute_tool_call {| tc_name := Some n; tc_parameters := Some p |} w
           = ({| client := client w; env := env w;
                 trace := trace w ++ [EvValidate n p] |},
              Return (error_result n
                        "Parameter validation failed: Parameters must be a dictionary")).
Proof.
  intros Htool Hget. unfold example_tools in Htool.
  rewrite !elem_of_cons, elem_of_nil in Htool.
  assert (∀ p, (∀ d, p ≠ PDict d) →
            ∀ checks, validate_tool_params tool = validate_with checks →
            _execute_tool_call {| tc_name := Some n; tc_parameters := Some p |} w
            = ({| client := client w; env := env w;
                  trace := trace w ++ [EvValidate n p] |},
               Return (error_result n
                         "Parameter validation failed: Parameters must be a dictionary")))
    as Hbase.
  { intros p Hp checks Hchecks.
    unfold _execute_tool_call, bind, ret, get_self, call.
    cbn [tc_name tc_parameters from_option id]. rewrite Hget, Hchecks.
    rewrite validate_with_runs. destruct p; try done. by destruct (Hp kvs). }
  destruct Htool as [->|[->|[->|[]]]].
  - exists "expression". split; [by left|]. split; [|by intros p Hp; eapply Hbase].
    unfold _execute_tool_call, bind, ret, get_self, call.
    cbn [tc_name tc_parameters from_option id]. by rewrite Hget.
  - exists "message". split; [by right; left|].
    split; [|by intros p Hp; eapply Hbase].
    unfold _execute_tool_call, bind, ret, get_self, call.
    cbn [tc_name tc_parameters from_option id]. by rewrite Hget.
  - exists "action". split; [by right; right|].
    split; [|by intros p Hp; eapply Hbase].
    unfold _execute_tool_call, bind, ret, get_self, call.
    cbn [tc_name tc_parameters from_option id]. by rewrite Hget.
Qed.

Lemma get_tool_with_tools (c : GeminiClient (W:=pdict)) ts n :
  get_tool (tool_registry (with_tools c ts)) n = odict_get n ts.
Proof. done. Qed.

(** X20: [register_example_tools] always returns; afterwards the three
    names [math_calculator], [echo_tool] and [memory_tool] resolve to the
    three example tools, whatever was registered under them before, every
    other name resolves as before, the memory tool starts with an empty
    store and the history is untouched; on an empty registry the tools are
    listed in the order math, echo, memory and exactly the four lines of
    the summary are printed. *)
Theorem register_example_tools_registers (w : World (W:=pdict)) :
  ∃ w',
    register_example_tools repr_str re_search py_eval w = (w', Return tt)
    ∧ env w' = []
    ∧ history (client w') = history (client w)
    ∧ get_tool (tool_registry (client w')) "math_calculator"
      = Some (MathCalculatorTool repr_str re_search py_eval)
    ∧ get_tool (tool_registry (client w')) "echo_tool" = Some (EchoTool repr_str)
    ∧ get_tool (tool_registry (client w')) "memory_tool" = Some (MemoryTool repr_str)
    ∧ (∀ n, n ∉ ["math_calculator"; "echo_tool"; "memory_tool"] →
            get_tool (tool_registry (client w')) n
            = get_tool (tool_registry (client w)) n)
    ∧ (tools (tool_registry (client w)) = [] →
       get_function_declarations (tool_registry (client w'))
       = schema <$> example_tools repr_str re_search py_eval
       ∧ trace w'
         = trace w ++ [EvPrint "Registered 3 example tools:";
                       EvPrint "  - Math Calculator (math_calculator)";
                       EvPrint "  - Echo Tool (echo_tool)";
                       EvPrint "  - Memory Tool (memory_tool)"]).
Proof.
  unfold register_example_tools, example_tools, new_memory_store.
  cbn [for_each]. unfold bind at 1.
  rewrite !bind_assoc.
  rewrite (bind_Return _ _ _ _ _ (register_tool_runs _ _)).
  rewrite !bind_assoc.
  rewrite (bind_Return _ _ _ _ _ (register_tool_runs _ _)).
  rewrite !bind_assoc.
  rewrite (bind_Return _ _ _ _ _ (register_tool_runs _ _)).
  unfold bind, ret, print. cbn [client env trace].
  eexists. split; [reflexivity|]. cbn [client env trace].
  set (reg := tools (tool_registry (client w))).
  split; [done|]. split; [done|].
  rewrite !get_tool_with_tools.
  cbn [name MathCalculatorTool EchoTool MemoryTool tool_registry with_tools tools].
  split. { rewrite !odict_get_set_ne by done. apply odict_get_set_eq. }
  split. { rewrite odict_get_set_ne by done. apply odict_get_set_eq. }
  split. { apply odict_get_set_eq. }
  split.
  { intros n Hn. rewrite !not_elem_of_cons in Hn. destruct Hn as (? & ? & ? & _).
    unfold get_tool. cbn [tools]. rewrite !odict_get_set_ne by done. done. }
  intros Hreg. subst reg. rewrite Hreg. split; [done|].
  cbn. rewrite !app_nil_r, <- !app_assoc. done.
Qed.

(** X21: [reset_chat] restores the history of a freshly constructed
    client with the configuration as it is now; [set_user_memory] alone
    leaves the history, and its first turn, as they were, and the new
    memory reaches the system turn at the next [reset_chat], where an
    empty memory counts as none. *)
Theorem reset_chat_restores_initial_history memory (w : World (W:=W)) :
  history (client (reset_chat w).1) = history (init (config (client w)) (api (client w)))
  ∧ history (client (set_user_memory memory w).1) = history (client w)
  ∧ history (client (reset_chat (set_user_memory memory w).1).1)
    = [from_text "system"
         (if String.eqb memory "" then base_prompt
          else base_prompt +:+ nl +:+ nl +:+ "# User Context" +:+ nl +:+ memory)].
Proof.
  split; [done|]. split; [done|].
  unfold reset_chat, set_user_memory, bind, get_self, assign_history. cbn.
  unfold get_core_system_prompt. cbn. by destruct (String.eqb memory "").
Qed.

End ExampleFacts.

(** ** Concrete sessions for the further statements *)

Lemma thresholds_ignore_config_witness :
  compression_threshold demo_Config = (7 # 10)%Q
  ∧ compression_token_threshold (client (send_message simple_dumps "hello" demo_start).1)
    = (8 # 10)%Q
  ∧ compression_preserve_threshold (client (send_message simple_dumps "hello" demo_start).1)
    = (3 # 10)%Q.
Proof.
  split; [reflexivity|]. apply (thresholds_ignore_config simple_dumps).
  eapply reach_step; [|apply step_send_message]. unfold demo_start. apply reach_init.
Defined.

Lemma compression_shortens_from_six_entries_witness :
  length (history (client four_turns)) = 4%nat
  ∧ length (history (client (try_compress_chat true four_turns).1)) = 5%nat.
Proof.
  assert (compression_preserve_threshold (client four_turns) = (3 # 10)%Q) as Hq.
  { by vm_compute. }
  assert (try_compress_chat true four_turns
          = ((try_compress_chat true four_turns).1,
             Return (Some (new_ChatCompressionInfo 124 140)))) as Hrun.
  { by vm_compute. }
  assert (length (history (client four_turns)) = 4%nat) as Hn by (by vm_compute).
  pose proof (compression_shortens_from_six_entries true four_turns _ _ Hq Hrun) as H.
  cbv zeta in H. destruct H as (_ & _ & H4 & _).
  split; [exact Hn|exact (H4 Hn)].
Defined.

Lemma set_history_copies_the_list_witness :
  Aliasing.read_list caller_heap 6%positive
  = Some [{| role := "system"; parts := [[("text", PStr "Be helpful.")]] |}]
  ∧ ∃ h1 self', Aliasing.set_history caller_heap small_client 6%positive = Some (h1, self')
      ∧ ∀ h2, Aliasing.mutate_all h1 6%positive
                [Aliasing.ListClear; Aliasing.ListAppend 4%positive] = Some h2 →
              Aliasing.read_history h2 self'
              = Some [{| role := "system"; parts := [[("text", PStr "Be helpful.")]] |}].
Proof.
  assert (Aliasing.read_list caller_heap 6%positive
          = Some [{| role := "system"; parts := [[("text", PStr "Be helpful.")]] |}])
    as Hread by (by vm_compute).
  split; [exact Hread|].
  destruct (set_history_copies_the_list caller_heap small_client _ _ Hread)
    as (h1 & self' & items & Hset & _ & _ & _ & _ & Hmut).
  exists h1, self'. split; [exact Hset|].
  intros h2. apply Hmut. by repeat constructor.
Defined.

Lemma count_tokens_monotone_witness :
  MockGeminiAPI_count_tokens
    ([from_text "user" "hello world"] ++ [from_text "model" "hi there"]) tt
  = (tt, Return 4)
  ∧ ∃ tokens, MockGeminiAPI_count_tokens [from_text "user" "hello world"] tt
              = (tt, Return tokens)
              ∧ 0 ≤ tokens ≤ 4.
Proof.
  assert (MockGeminiAPI_count_tokens
            ([from_text "user" "hello world"] ++ [from_text "model" "hi there"]) tt
          = (tt, Return 4)) as Hrun by (by vm_compute).
  split; [exact Hrun|].
  destruct (count_tokens_monotone _ _ _ _ _ Hrun) as (tokens & Ht & Hle & _).
  exists tokens. split; [exact Ht|exact Hle].
Defined.

Lemma mock_response_shape_witness :
  MockGeminiAPI_generate_content [from_text "user" "calculate 2 + 3"]
    (Some (PList [])) (Some "be brief") tt
  = (tt, Return (math_call "calculate 2 + 3"))
  ∧ MockGeminiAPI_generate_content [from_text "user" "calculate 2 + 3"] None None tt
    = (tt, Return (math_call "calculate 2 + 3")).
Proof.
  assert (MockGeminiAPI_generate_content [from_text "user" "calculate 2 + 3"]
            (Some (PList [])) (Some "be brief") tt
          = (tt, Return (math_call "calculate 2 + 3"))) as Hrun by (by vm_compute).
  split; [exact Hrun|].
  exact (proj1 (proj2 (mock_response_shape _ _ _ _ _ _ Hrun))).
Defined.

Lemma mock_answers_last_user_turn_witness :
  MockGeminiAPI_generate_content
    ([from_text "system" "be brief"] ++ [from_text "user" "echo hi"]
     ++ [from_text "function" "[]"; from_text "model" "ok"]) None None tt
  = MockGeminiAPI_generate_content [from_text "user" "echo hi"]
      (Some (PList [])) (Some "be brief") tt.
Proof.
  assert (Forall (λ c : Content, role c ≠ "user")
            [from_text "function" "[]"; from_text "model" "ok"]) as Hothers.
  { repeat constructor; unfold from_text; cbn; intros [=]. }
  exact (proj1 (mock_answers_last_user_turn [from_text "system" "be brief"]
                  (from_text "user" "echo hi") _ None None
                  (Some (PList [])) (Some "be brief") tt Hothers) eq_refl).
Defined.

Lemma mock_tool_cycle_reply_witness :
  ∃ w' t, send_message simple_dumps "echo hello" example_world = (w', Return t)
          ∧ histories w' = ["system"; "user"; "function"; "model"]
          ∧ t = "Tool execution completed.".
Proof.
  pose (r := send_message simple_dumps "echo hello" example_world).
  exists r.1, "Tool execution completed.".
  assert (send_message simple_dumps "echo hello" example_world
          = (r.1, Return "Tool execution completed.")) as Hrun by (by vm_compute).
  split; [exact Hrun|]. split; [by vm_compute|].
  assert (∃ s, history (client r.1)
               = [from_text "system" (get_core_system_prompt None)]
                 ++ [from_text "user" "echo hello"; from_text "function" s;
                     from_text "model" "Tool execution completed."]) as [s Hs].
  { vm_compute. eexists. reflexivity. }
  exact (mock_tool_cycle_reply simple_dumps "echo hello" example_world r.1 _ s _
           eq_refl Hrun Hs).
Defined.

Lemma echo_execute_after_validation_witness :
  validate_tool_params (EchoTool simple_repr) (echo_params "hi" 3) tt = (tt, Return None)
  ∧ ∃ payload lines,
      execute (EchoTool simple_repr) (echo_params "hi" 3) tt = (tt, Return (PDict payload))
      ∧ odict_get "echoed_content" payload = Some (PStr (str_join nl lines))
      ∧ length lines = 3%nat
      ∧ lines !! 2%nat = Some "3. hi".
Proof.
  assert (validate_tool_params (EchoTool simple_repr) (echo_params "hi" 3) tt
          = (tt, Return None)) as Hv by (by vm_compute).
  split; [exact Hv|].
  destruct (echo_execute_after_validation simple_repr _ tt tt tt Hv)
    as (d & message & n & lines & payload & Hp & Hm & Hn & _ & Hrun & _ & Hc & _ & Hl & _ & Hi).
  unfold echo_params in Hp. injection Hp as <-.
  vm_compute in Hm. injection Hm as <-. vm_compute in Hn. injection Hn as <-.
  exists payload, lines. split; [exact Hrun|]. split; [exact Hc|]. split; [exact Hl|].
  apply (Hi eq_refl 2%nat). vm_compute. lia.
Defined.






Lemma example_tools_refuse_missing_parameters_witness :
  get_tool (tool_registry (client example_world)) "memory_tool" = Some (MemoryTool simple_repr)
  ∧ _execute_tool_call {| tc_name := Some "memory_tool"; tc_parameters := None |}
      example_world
    = ({| client := client example_world; env := env example_world;
          trace := trace example_world ++ [EvValidate "memory_tool" (PDict [])] |},
       Return (error_result "memory_tool"
                 "Parameter validation failed: Missing required parameter: action")).
Proof.
  assert (get_tool (tool_registry (client example_world)) "memory_tool"
          = Some (MemoryTool simple_repr)) as Hget by reflexivity.
  split; [exact Hget|].
  assert (MemoryTool simple_repr ∈ example_tools simple_repr import_search table_eval)
    as Hin.
  { unfold example_tools. rewrite !elem_of_cons. right. right. by left. }
  destruct (example_tools_refuse_missing_parameters simple_repr import_search table_eval
              _ "memory_tool" example_world Hin Hget) as (required & Hname & Hrun & _).
  destruct Hname as [[Hn _]|[[Hn _]|[_ ->]]]; [discriminate Hn|discriminate Hn|exact Hrun].
Defined.
